(** * Verification of the GPU-occupancy engine of raytool ([commands/occupy.py])

    Shallow embedding of the occupy subsystem: the instance profile table,
    the free-node computation, the batch planner, the job-name generator,
    the manifest builder, the inventory readers and the patrol loop. *)

From Stdlib Require Import Bool Arith Lia List ZArith Ascii String Sorting.Sorted Permutation.
Import ListNotations.
Open Scope string_scope.
Open Scope list_scope.
Set Warnings "-register-all".

(* ------------------------------------------------------------------ *)
(** ** Instance profile table ([GPU_INSTANCE_PROFILES], [_get_instance_profile]) *)

Record profile := mkProfile {
  gpus : Z;
  efa : Z;
  gpu_model : string;
  description : string
}.

Definition GPU_INSTANCE_PROFILES : list (string * profile) := [
  ("ml.p5en.48xlarge", mkProfile 8 16 "H200" "8×H200 (p5en)");
  ("ml.p5e.48xlarge", mkProfile 8 32 "H200" "8×H200 (p5e)");
  ("ml.p5.48xlarge", mkProfile 8 32 "H100" "8×H100 (p5)");
  ("ml.p4d.24xlarge", mkProfile 8 4 "A100" "8×A100 (p4d)");
  ("ml.p4de.24xlarge", mkProfile 8 4 "A100-80G" "8×A100-80G (p4de)");
  ("ml.g5.48xlarge", mkProfile 8 1 "A10G" "8×A10G (g5)")
].

Definition DEFAULT_GPU_PROFILE : profile := mkProfile 8 16 "Unknown" "Unknown GPU".

(** [dict.get(key, default)] on a dict given by its (duplicate-free) items. *)
Fixpoint dict_get {V} (k : string) (d : list (string * V)) (default : V) : V :=
  match d with
  | [] => default
  | (k', v) :: r => if String.eqb k k' then v else dict_get k r default
  end.

Definition _get_instance_profile (instance_type : string) : profile :=
  dict_get instance_type GPU_INSTANCE_PROFILES DEFAULT_GPU_PROFILE.

(* ------------------------------------------------------------------ *)
(** ** Node records and the free-node list *)

(** The dict appended by [_get_gpu_nodes] for every GPU node. *)
Record node := mkNode {
  name : string;
  ready : bool;
  gpu_count : Z;
  status : string;
  instance_type : string;
  node_gpu_model : string;
  efa_count : Z;
  node_description : string
}.

(** [x in s] for a Python set of strings, held as a list of its members. *)
Definition set_mem (x : string) (s : list string) : bool :=
  existsb (String.eqb x) s.

(** [free_nodes = [n for n in all_nodes if n["name"] not in busy_nodes]]
    (the same comprehension in [_submit_occupy_jobs] and [_auto_occupy]). *)
Definition free_nodes (all_nodes : list node) (busy_nodes : list string) : list node :=
  filter (fun n => negb (set_mem n.(name) busy_nodes)) all_nodes.

(** The spec's FreeNode predicate: not busy and ready. *)
Definition spec_is_free (busy_nodes : list string) (n : node) : bool :=
  negb (set_mem n.(name) busy_nodes) && n.(ready).

(* ------------------------------------------------------------------ *)
(** ** Batch planner (step 5 and 6 of [_submit_occupy_jobs], same in [_auto_occupy]) *)

Definition DEFAULT_BATCH_SIZE : nat := 4.

(** [free_by_type.setdefault(itype, []).append(n)] on an insertion-ordered dict. *)
Fixpoint setdefault_append (k : string) (n : node) (d : list (string * list node))
  : list (string * list node) :=
  match d with
  | [] => [(k, [n])]
  | (k', l) :: r =>
      if String.eqb k k' then (k', l ++ [n]) :: r
      else (k', l) :: setdefault_append k n r
  end.

Definition free_by_type (free : list node) : list (string * list node) :=
  fold_left (fun d n => setdefault_append n.(instance_type) n d) free [].

(** Python's [sorted] on distinct strings (code-point order = byte order). *)
Fixpoint insert_str (x : string) (l : list string) : list string :=
  match l with
  | [] => [x]
  | y :: r => if String.leb x y then x :: y :: r else y :: insert_str x r
  end.

Fixpoint sort_str (l : list string) : list string :=
  match l with
  | [] => []
  | x :: r => insert_str x (sort_str r)
  end.

(** [while remaining > 0: batch = min(DEFAULT_BATCH_SIZE, remaining); ...];
    [fuel] bounds the iterations (every iteration lowers [remaining]). *)
Fixpoint batches_for (fuel remaining : nat) (itype : string) : list (nat * string) :=
  match fuel with
  | O => []
  | S f =>
      if Nat.ltb 0 remaining then
        let batch := Nat.min DEFAULT_BATCH_SIZE remaining in
        (batch, itype) :: batches_for f (remaining - batch) itype
      else []
  end.

(** [batch_plan] as computed from the free-node list. *)
Definition batch_plan (free : list node) : list (nat * string) :=
  let fbt := free_by_type free in
  flat_map (fun itype =>
              let type_free := List.length (dict_get itype fbt []) in
              batches_for type_free type_free itype)
           (sort_str (map fst fbt)).

(** Reference partition following the spec's words: carve off
    [min(4, remaining)] until nothing remains. *)
Fixpoint greedy (remaining : nat) : list nat :=
  match remaining with
  | 0 => []
  | 1 => [1]
  | 2 => [2]
  | 3 => [3]
  | S (S (S (S r))) => 4 :: greedy r
  end.

Definition count_type (t : string) (free : list node) : nat :=
  List.length (filter (fun n => String.eqb n.(instance_type) t) free).

Definition str_lt (a b : string) : Prop := String.ltb a b = true.

Definition reference_plan (types : list string) (free : list node) : list (nat * string) :=
  flat_map (fun t => map (fun s => (s, t)) (greedy (count_type t free))) types.

(** Sum of the sizes of the batches of one instance type. *)
Definition planned_for (t : string) (plan : list (nat * string)) : nat :=
  list_sum (map fst (filter (fun b => String.eqb (snd b) t) plan)).

(* ------------------------------------------------------------------ *)
(** ** Job-name generator ([_generate_random_job_names]) *)

Definition MODEL_NAMES : list string := ["qwen3"; "qwen25"].
Definition TASK_TYPES : list string := ["retool"; "search"; "swebench"].

(** [str.lower()] on ASCII text. *)
Definition ascii_lower (c : ascii) : ascii :=
  let k := nat_of_ascii c in
  if Nat.leb 65 k && Nat.leb k 90 then ascii_of_nat (k + 32) else c.

Fixpoint str_lower (s : string) : string :=
  match s with
  | EmptyString => EmptyString
  | String c r => String (ascii_lower c) (str_lower r)
  end.

(** [s.replace(c, r)] for a one-character pattern [c]. *)
Fixpoint str_replace (c : ascii) (r : string) (s : string) : string :=
  match s with
  | EmptyString => EmptyString
  | String c' s' =>
      if Ascii.eqb c c' then r ++ str_replace c r s' else String c' (str_replace c r s')
  end.

Definition norm_model (m : string) : string :=
  str_replace "_" "-" (str_replace "." "" (str_lower m)).

Definition norm_task (t : string) : string :=
  str_replace "_" "-" (str_lower t).

(** [combos] before [random.shuffle(combos)]. *)
Definition base_combos : list (string * string) :=
  flat_map (fun m => map (fun t => (norm_model m, norm_task t)) TASK_TYPES) MODEL_NAMES.

(** Decimal digits: [str(n)], [f"{n:02d}"] and [int(s)] on ASCII digits. *)
Definition digit_char (d : nat) : ascii := ascii_of_nat (48 + d).
Definition digit_val (c : ascii) : nat := nat_of_ascii c - 48.
Definition is_digit (c : ascii) : bool :=
  Nat.leb 48 (nat_of_ascii c) && Nat.leb (nat_of_ascii c) 57.

(** Most significant digit first; [fuel] bounds the divisions. *)
Fixpoint digits_of (fuel n : nat) : list nat :=
  match fuel with
  | O => []
  | S f => if Nat.eqb n 0 then [] else digits_of f (n / 10) ++ [n mod 10]
  end.

Definition nat_to_dec (n : nat) : string :=
  if Nat.eqb n 0 then "0" else string_of_list_ascii (map digit_char (digits_of n n)).

Fixpoint zeros (k : nat) : string :=
  match k with
  | O => EmptyString
  | S k' => String "0" (zeros k')
  end.

Definition format_02d (n : nat) : string :=
  let s := nat_to_dec n in zeros (2 - String.length s) ++ s.

Definition parse_dec (s : string) : nat :=
  fold_left (fun acc c => acc * 10 + digit_val c) (list_ascii_of_string s) 0.

(** [s] without its prefix [p], if [p] is a prefix of [s]. *)
Fixpoint strip_prefix (p s : string) : option string :=
  match p, s with
  | EmptyString, _ => Some s
  | String c p', String c' s' => if Ascii.eqb c c' then strip_prefix p' s' else None
  | String _ _, EmptyString => None
  end.

(** The longest prefix of ASCII digits and the rest ([\d+] is greedy). *)
Fixpoint take_digits (s : string) : string * string :=
  match s with
  | String c r =>
      if is_digit c then let '(ds, rest) := take_digits r in (String c ds, rest)
      else (EmptyString, s)
  | EmptyString => (EmptyString, EmptyString)
  end.

Definition newline : string := String (ascii_of_nat 10) EmptyString.

(** [re.match(rf"^{re.escape(prefix)}-(\d+)$", s)] followed by
    [int(m.group(1))]; Python's [$] also matches before a final newline. *)
Definition match_seq (prefix s : string) : option nat :=
  match strip_prefix (prefix ++ "-") s with
  | None => None
  | Some rest =>
      let '(ds, tail) := take_digits rest in
      if negb (String.eqb ds "") && (String.eqb tail "" || String.eqb tail newline)
      then Some (parse_dec ds) else None
  end.

(** [max_idx] over [existing_names | set(names)]. *)
Definition max_idx (prefix : string) (used : list string) : nat :=
  fold_left (fun acc e => match match_seq prefix e with
                          | Some k => Nat.max acc k
                          | None => acc
                          end) used 0.

Definition name_prefix (model task date_str : string) : string :=
  "run-" ++ model ++ "-" ++ task ++ "-" ++ date_str.

(** The name proposed for the combination at [combo_idx]. *)
Definition candidate (combos : list (string * string)) (date_str : string)
  (existing_names names : list string) (combo_idx : nat) : string :=
  let '(model, task) := nth (combo_idx mod List.length combos) combos ("", "") in
  let prefix := name_prefix model task date_str in
  prefix ++ "-" ++ format_02d (max_idx prefix (existing_names ++ names) + 1).

(** The [while attempts < len(combos) * 100] loop: the name found (if any)
    and the new [combo_idx]. *)
Fixpoint search (fuel : nat) (combos : list (string * string)) (date_str : string)
  (existing_names names : list string) (combo_idx : nat) : option string * nat :=
  match fuel with
  | O => (None, combo_idx)
  | S f =>
      let job_name := candidate combos date_str existing_names names combo_idx in
      if negb (set_mem job_name existing_names) && negb (set_mem job_name names)
      then (Some job_name, S combo_idx)
      else search f combos date_str existing_names names (S combo_idx)
  end.

Definition fallback_name (date_str : string) (r : nat) : string :=
  "run-qwen3-retool-" ++ date_str ++ "-" ++ format_02d r.

(** The [for _ in range(count)] loop; [rnd i] is the value drawn by
    [random.randint(50, 99)] if the [i]-th request falls back. *)
Fixpoint gen_loop (k : nat) (combos : list (string * string)) (date_str : string)
  (existing_names : list string) (rnd : nat -> nat) (i : nat)
  (names : list string) (combo_idx : nat) : list string :=
  match k with
  | O => names
  | S k' =>
      match search (List.length combos * 100) combos date_str existing_names names combo_idx with
      | (Some job_name, idx') =>
          gen_loop k' combos date_str existing_names rnd (S i) (names ++ [job_name]) idx'
      | (None, idx') =>
          gen_loop k' combos date_str existing_names rnd (S i)
                   (names ++ [fallback_name date_str (rnd i)]) idx'
      end
  end.

(** [combos] is the combination list after [random.shuffle]. *)
Definition _generate_random_job_names (count : nat) (date_str : string)
  (existing_names : list string) (combos : list (string * string)) (rnd : nat -> nat)
  : list string :=
  gen_loop count combos date_str existing_names rnd 0 [] 0.

(** Reference run without the fallback: request [i] takes the first
    candidate of combination [combo_idx + i]. *)
Fixpoint first_candidates (k : nat) (combos : list (string * string)) (date_str : string)
  (existing_names names : list string) (combo_idx : nat) : list string :=
  match k with
  | O => names
  | S k' =>
      first_candidates k' combos date_str existing_names
        (names ++ [candidate combos date_str existing_names names combo_idx]) (S combo_idx)
  end.

(** [OCCUPY_NAME_PATTERN = ^run-[a-z0-9]+-[a-z0-9]+-\d{4}-\d{2}$] (used by
    [re.match], so anchored at the start; [$] as above). *)
Definition is_lower_alnum (c : ascii) : bool :=
  is_digit c || (Nat.leb 97 (nat_of_ascii c) && Nat.leb (nat_of_ascii c) 122).

Fixpoint take_alnum (s : string) : string * string :=
  match s with
  | String c r =>
      if is_lower_alnum c then let '(w, rest) := take_alnum r in (String c w, rest)
      else (EmptyString, s)
  | EmptyString => (EmptyString, EmptyString)
  end.

Definition match_occupy_name (s : string) : bool :=
  match strip_prefix "run-" s with
  | None => false
  | Some r1 =>
      let '(w1, r2) := take_alnum r1 in
      let '(w2, r3) := match strip_prefix "-" r2 with
                       | Some r => take_alnum r
                       | None => (EmptyString, EmptyString)
                       end in
      match strip_prefix "-" r3 with
      | None => false
      | Some r4 =>
          let '(d4, r5) := take_digits r4 in
          match strip_prefix "-" r5 with
          | None => false
          | Some r6 =>
              let '(d2, r7) := take_digits r6 in
              negb (String.eqb w1 "") && negb (String.eqb w2 "") &&
              Nat.eqb (String.length d4) 4 && Nat.eqb (String.length d2) 2 &&
              (String.eqb r7 "" || String.eqb r7 newline)
          end
      end
  end.

(* ------------------------------------------------------------------ *)
(** ** Manifest builder ([_build_occupy_yaml]) *)

(** The document passed to [yaml.dump]: strings, integers, lists and
    insertion-ordered dicts. *)
Inductive yval :=
| YStr (s : string)
| YInt (z : Z)
| YList (l : list yval)
| YMap (kvs : list (string * yval)).

Definition dq : string := String (ascii_of_nat 34) EmptyString.
Definition indent18 : string := "                  ".

(** [echo "<text>"] *)
Definition echo_q (text : string) : string := "echo " ++ dq ++ text ++ dq.

(** Lines of a triple-quoted literal whose continuation lines carry the
    source indentation (the blank lines of the source are empty). *)
Fixpoint join_lines (ls : list string) : string :=
  match ls with
  | [] => EmptyString
  | [l] => l
  | l :: r => l ++ newline ++ join_lines r
  end.

Definition ind (l : string) : string := if String.eqb l "" then "" else indent18 ++ l.

(** The literal before [+ instance_type +]. *)
Definition occupy_cmd_head : string :=
  join_lines [
    echo_q "=== GPU Occupy - {role} ===";
    ind (echo_q "RANK: $RANK");
    ind (echo_q "WORLD_SIZE: $WORLD_SIZE");
    ind ("echo " ++ dq ++ "Instance Type: ")].

(** The literal after [+ instance_type +]. *)
Definition occupy_cmd_tail : string :=
  dq ++ newline ++ join_lines (map ind [
    "hostname -I";
    "nvidia-smi";
    "";
    "# 清理 PyTorchJob 注入的分布式环境变量";
    "unset MASTER_ADDR MASTER_PORT WORLD_SIZE RANK LOCAL_RANK";
    "unset GROUP_RANK ROLE_RANK LOCAL_WORLD_SIZE ROLE_WORLD_SIZE";
    "";
    "source /root/miniconda3/etc/profile.d/conda.sh";
    "conda activate agent-lightning";
    "export PATH=$CONDA_PREFIX/bin:$PATH";
    "";
    echo_q "Python: $(which python3)";
    echo_q "CUDA available: $(python3 -c 'import torch; print(torch.cuda.is_available())')";
    echo_q "GPU count: $(python3 -c 'import torch; print(torch.cuda.device_count())')";
    "";
    "python3 /fsx/gpu_stress.py \";
    "  --matrix-size 4096 \";
    "  --duty-cycle 0.80 \";
    "  --mem-fraction 0.75 \";
    "  --duration 168";
    "";
    "EXIT_CODE=$?";
    echo_q "gpu_stress.py exited with code: $EXIT_CODE";
    "if [ $EXIT_CODE -ne 0 ]; then";
    ("  " ++ echo_q "[ERROR] gpu_stress.py failed!")%string;
    "fi";
    "sleep 365d"]).

Definition occupy_cmd (instance_type : string) : string :=
  occupy_cmd_head ++ instance_type ++ occupy_cmd_tail.

(** [template.format(role=...)]: [{{] and [}}] are literal braces, the
    field [{role}] is replaced, and any other field, or a lone brace,
    raises ([KeyError], [IndexError] or [ValueError]); [None] is the
    exception. Fields with a conversion or format spec are not modelled. *)
Inductive fstate := FNormal | FOpen | FField (acc : string) | FClose.

Definition lbrace : ascii := "{".
Definition rbrace : ascii := "}".

Fixpoint fmt_go (st : fstate) (role s : string) : option string :=
  match s with
  | EmptyString =>
      match st with FNormal => Some EmptyString | _ => None end
  | String c r =>
      match st with
      | FNormal =>
          if Ascii.eqb c lbrace then fmt_go FOpen role r
          else if Ascii.eqb c rbrace then fmt_go FClose role r
          else option_map (String c) (fmt_go FNormal role r)
      | FOpen =>
          if Ascii.eqb c lbrace then option_map (String lbrace) (fmt_go FNormal role r)
          else if Ascii.eqb c rbrace then None
          else fmt_go (FField (String c EmptyString)) role r
      | FField acc =>
          if Ascii.eqb c rbrace then
            if String.eqb acc "role" then option_map (append role) (fmt_go FNormal role r)
            else None
          else if Ascii.eqb c lbrace then None
          else fmt_go (FField (acc ++ String c EmptyString)) role r
      | FClose =>
          if Ascii.eqb c rbrace then option_map (String rbrace) (fmt_go FNormal role r)
          else None
      end
  end.

Definition py_format_role (template role : string) : option string :=
  fmt_go FNormal role template.

(** [str(n)] for a Python int. *)
Definition z_to_dec (z : Z) : string :=
  if Z.ltb z 0 then "-" ++ nat_to_dec (Z.to_nat (- z)) else nat_to_dec (Z.to_nat z).

Definition volume_mounts : yval :=
  YList [
    YMap [("name", YStr "shmem"); ("mountPath", YStr "/dev/shm")];
    YMap [("name", YStr "local"); ("mountPath", YStr "/local")];
    YMap [("name", YStr "inst-nvme"); ("mountPath", YStr "/ckpt-path")];
    YMap [("name", YStr "local-cache"); ("mountPath", YStr "/root/.cache")];
    YMap [("name", YStr "fsx-storage"); ("mountPath", YStr "/fsx");
          ("subPath", YStr "youtu-agent/zhijianzhou")]].

Definition volumes : yval :=
  YList [
    YMap [("name", YStr "shmem"); ("hostPath", YMap [("path", YStr "/dev/shm")])];
    YMap [("name", YStr "local"); ("hostPath", YMap [("path", YStr "/mnt/k8s-disks/0")])];
    YMap [("name", YStr "local-cache"); ("hostPath", YMap [("path", YStr "/opt/dlami/nvme/.cache")])];
    YMap [("name", YStr "inst-nvme"); ("hostPath", YMap [("path", YStr "/opt/dlami/nvme/checkpoints/")])];
    YMap [("name", YStr "fsx-storage");
          ("persistentVolumeClaim", YMap [("claimName", YStr "fsx-claim")])]].

Definition env : yval :=
  YList [
    YMap [("name", YStr "FI_PROVIDER"); ("value", YStr "efa")];
    YMap [("name", YStr "FI_EFA_USE_DEVICE_RDMA"); ("value", YStr "1")];
    YMap [("name", YStr "PATH");
          ("value", YStr "/root/miniconda3/envs/agent-lightning/bin:/root/miniconda3/bin:/usr/local/sbin:/usr/local/bin:/usr/sbin:/usr/bin:/sbin:/bin")]].

Definition image : string :=
  "054486717055.dkr.ecr.ap-southeast-3.amazonaws.com/youtu-agent:agent-lightning-0.2.2-1218-aws".

(** The [pytorchjob] dict handed to [yaml.dump] ([None]: [.format] raised).
    The serialisation itself is not modelled. *)
Definition _build_occupy_yaml (job_name namespace : string) (worker_replicas : Z)
  (instance_type : string) : option yval :=
  let profile := _get_instance_profile instance_type in
  let gpu_count := profile.(gpus) in
  let efa_count := profile.(efa) in
  match py_format_role (occupy_cmd instance_type) "Master" with
  | None => None
  | Some master_cmd =>
  match py_format_role (occupy_cmd instance_type) "Worker" with
  | None => None
  | Some worker_cmd =>
  let resources :=
    YMap [("requests", YMap [("nvidia.com/gpu", YInt gpu_count); ("vpc.amazonaws.com/efa", YInt efa_count)]);
          ("limits", YMap [("nvidia.com/gpu", YInt gpu_count); ("vpc.amazonaws.com/efa", YInt efa_count)])] in
  let master_container :=
    YMap [("name", YStr "pytorch"); ("image", YStr image); ("imagePullPolicy", YStr "Always");
          ("ports", YList [
             YMap [("containerPort", YInt 6379); ("name", YStr "gcs-server")];
             YMap [("containerPort", YInt 8265); ("name", YStr "dashboard")];
             YMap [("containerPort", YInt 10001); ("name", YStr "client")];
             YMap [("containerPort", YInt 8000); ("name", YStr "serve")];
             YMap [("containerPort", YInt 8080); ("name", YStr "metrics")]]);
          ("resources", resources); ("env", env);
          ("command", YList [YStr "bash"; YStr "-c"]); ("args", YList [YStr master_cmd]);
          ("volumeMounts", volume_mounts)] in
  let worker_container :=
    YMap [("name", YStr "pytorch"); ("image", YStr image); ("imagePullPolicy", YStr "Always");
          ("resources", resources); ("env", env);
          ("command", YList [YStr "bash"; YStr "-c"]); ("args", YList [YStr worker_cmd]);
          ("volumeMounts", volume_mounts)] in
  let node_selector := YMap [("node.kubernetes.io/instance-type", YStr instance_type)] in
  let master :=
    ("Master", YMap [("replicas", YInt 1); ("restartPolicy", YStr "OnFailure");
                     ("template", YMap [("spec", YMap [("nodeSelector", node_selector);
                                                       ("containers", YList [master_container]);
                                                       ("volumes", volumes)])])]) in
  let worker :=
    ("Worker", YMap [("replicas", YInt worker_replicas); ("restartPolicy", YStr "OnFailure");
                     ("template", YMap [("spec", YMap [("nodeSelector", node_selector);
                                                       ("containers", YList [worker_container]);
                                                       ("volumes", volumes)])])]) in
  let replica_specs := if Z.ltb 0 worker_replicas then [master; worker] else [master] in
  Some (YMap [("apiVersion", YStr "kubeflow.org/v1"); ("kind", YStr "PyTorchJob");
              ("metadata", YMap [("name", YStr job_name); ("namespace", YStr namespace)]);
              ("spec", YMap [("nprocPerNode", YStr (z_to_dec gpu_count));
                             ("pytorchReplicaSpecs", YMap replica_specs)])])
  end
  end.

(** Reading a built manifest. *)
Definition ylookup (k : string) (v : yval) : option yval :=
  match v with
  | YMap kvs => (fix go l := match l with
                             | [] => None
                             | (k', x) :: r => if String.eqb k k' then Some x else go r
                             end) kvs
  | _ => None
  end.

Fixpoint ypath (p : list string) (v : yval) : option yval :=
  match p with
  | [] => Some v
  | k :: r => match ylookup k v with Some x => ypath r x | None => None end
  end.

Definition ykeys (v : yval) : list string :=
  match v with YMap kvs => map fst kvs | _ => [] end.

(** The replica groups under [spec.pytorchReplicaSpecs]. *)
Definition replica_groups (m : yval) : list string :=
  match ypath ["spec"; "pytorchReplicaSpecs"] m with Some v => ykeys v | None => [] end.

(** A resource quantity of the (single) container of a replica group. *)
Definition container_quantity (role kind key : string) (m : yval) : option yval :=
  match ypath ["spec"; "pytorchReplicaSpecs"; role; "template"; "spec"; "containers"] m with
  | Some (YList [c]) => ypath ["resources"; kind; key] c
  | _ => None
  end.

Fixpoint has_brace (s : string) : bool :=
  match s with
  | EmptyString => false
  | String c r => Ascii.eqb c lbrace || Ascii.eqb c rbrace || has_brace r
  end.

(* ------------------------------------------------------------------ *)
(** ** Inventory readers ([_get_gpu_nodes], [_get_busy_nodes]) *)

(** A decoded JSON document (numbers are integers). *)
Inductive json :=
| JNull
| JBool (b : bool)
| JNum (z : Z)
| JStr (s : string)
| JArr (l : list json)
| JObj (kvs : list (string * json)).

(** The Python exceptions these functions can meet. *)
Inductive py_exn := AttributeError | TypeError | ValueError | KeyError.

Inductive res (A : Type) := Ok (a : A) | Raise (e : py_exn).
Arguments Ok {A} a.
Arguments Raise {A} e.

Notation "x <- c ;; k" := (match c with Ok x => k | Raise e => Raise e end)
  (at level 61, c at next level, right associativity).

(** [run_kubectl(..., timeout=15)]: the return code ([1] on timeout or a
    missing binary) and the result of [json.loads(stdout)] ([None] when it
    raises [JSONDecodeError]). *)
Record kubectl_result := mkKubectl {
  rc : Z;
  stdout_json : option json
}.

(** [d.get(k, default)]; a JSON object decodes to a dict whose value for a
    repeated key is the last one. *)
Fixpoint obj_lookup (k : string) (kvs : list (string * json)) : option json :=
  match kvs with
  | [] => None
  | (k', v) :: r =>
      match obj_lookup k r with
      | Some w => Some w
      | None => if String.eqb k k' then Some v else None
      end
  end.

Definition py_get (d : json) (k : string) (default : json) : res json :=
  match d with
  | JObj kvs => Ok (match obj_lookup k kvs with Some v => v | None => default end)
  | _ => Raise AttributeError
  end.

(** The keys of a dict, in first-insertion order. *)
Fixpoint dict_keys (kvs : list (string * json)) (seen : list string) : list string :=
  match kvs with
  | [] => []
  | (k, _) :: r => if set_mem k seen then dict_keys r seen else k :: dict_keys r (k :: seen)
  end.

(** [iter(v)]: lists give their items, dicts their keys, strings their
    characters; other values raise [TypeError]. *)
Definition py_iter (v : json) : res (list json) :=
  match v with
  | JArr l => Ok l
  | JObj kvs => Ok (map JStr (dict_keys kvs []))
  | JStr s => Ok (map (fun c => JStr (String c EmptyString)) (list_ascii_of_string s))
  | _ => Raise TypeError
  end.

Definition py_truthy (v : json) : bool :=
  match v with
  | JNull => false
  | JBool b => b
  | JNum z => negb (Z.eqb z 0)
  | JStr s => negb (String.eqb s "")
  | JArr l => match l with [] => false | _ => true end
  | JObj kvs => match kvs with [] => false | _ => true end
  end.

Definition py_eq_str (v : json) (s : string) : bool :=
  match v with JStr s' => String.eqb s' s | _ => false end.

Definition is_space (c : ascii) : bool :=
  match nat_of_ascii c with 9 | 10 | 11 | 12 | 13 | 32 => true | _ => false end.

Fixpoint lstrip (l : list ascii) : list ascii :=
  match l with
  | c :: r => if is_space c then lstrip r else l
  | [] => []
  end.

(** [int(s)] on a string: surrounding whitespace, an optional sign and
    ASCII digits (digit-group underscores are not modelled). *)
Definition py_int_of_string (s : string) : res Z :=
  let body := rev (lstrip (rev (lstrip (list_ascii_of_string s)))) in
  let '(sign, ds) := match body with
                     | c :: r => if Ascii.eqb c "-" then ((-1)%Z, r)
                                 else if Ascii.eqb c "+" then (1%Z, r) else (1%Z, body)
                     | [] => (1%Z, [])
                     end in
  match ds with
  | [] => Raise ValueError
  | _ => if forallb is_digit ds
         then Ok (sign * Z.of_nat (parse_dec (string_of_list_ascii ds)))%Z
         else Raise ValueError
  end.

Definition py_int (v : json) : res Z :=
  match v with
  | JNum z => Ok z
  | JBool b => Ok (if b then 1%Z else 0%Z)
  | JStr s => py_int_of_string s
  | _ => Raise TypeError
  end.

(** [GPU_INSTANCE_PROFILES.get(instance_type, DEFAULT_GPU_PROFILE)] on any
    value: lists and dicts are unhashable, other non-strings miss. *)
Definition py_profile (instance_type : json) : res profile :=
  match instance_type with
  | JStr s => Ok (_get_instance_profile s)
  | JArr _ | JObj _ => Raise TypeError
  | _ => Ok DEFAULT_GPU_PROFILE
  end.

Fixpoint res_fold {A B : Type} (f : B -> A -> res B) (l : list A) (acc : B) : res B :=
  match l with
  | [] => Ok acc
  | x :: r => match f acc x with Ok acc' => res_fold f r acc' | Raise e => Raise e end
  end.

(** [any(...)], which stops at the first true element. *)
Fixpoint res_any {A : Type} (f : A -> res bool) (l : list A) : res bool :=
  match l with
  | [] => Ok false
  | x :: r => match f x with
              | Ok true => Ok true
              | Ok false => res_any f r
              | Raise e => Raise e
              end
  end.

(** The dict appended by [_get_gpu_nodes], with the values it read. *)
Record gpu_node := mkGpuNode {
  gn_name : json;
  gn_ready : bool;
  gn_gpu_count : Z;
  gn_status : string;
  gn_instance_type : json;
  gn_gpu_model : string;
  gn_efa_count : Z;
  gn_description : string
}.

(** One iteration of the [for item in data.get("items", [])] loop. *)
Definition gpu_node_step (nodes : list gpu_node) (item : json) : res (list gpu_node) :=
  metadata <- py_get item "metadata" (JObj []) ;;
  labels <- py_get metadata "labels" (JObj []) ;;
  status <- py_get item "status" (JObj []) ;;
  capacity <- py_get status "capacity" (JObj []) ;;
  g <- py_get capacity "nvidia.com/gpu" (JNum 0) ;;
  gpu_count <- py_int g ;;
  if Z.eqb gpu_count 0 then Ok nodes else
  l1 <- py_get labels "node.kubernetes.io/instance-type" JNull ;;
  instance_type <- (if py_truthy l1 then Ok l1 else
                      l2 <- py_get labels "beta.kubernetes.io/instance-type" JNull ;;
                      Ok (if py_truthy l2 then l2 else JStr "unknown")) ;;
  conditions <- py_get status "conditions" (JArr []) ;;
  cs <- py_iter conditions ;;
  ready <- res_any (fun c => t <- py_get c "type" JNull ;;
                             if py_eq_str t "Ready"
                             then (s <- py_get c "status" JNull ;; Ok (py_eq_str s "True"))
                             else Ok false) cs ;;
  profile <- py_profile instance_type ;;
  nm <- py_get metadata "name" (JStr "") ;;
  Ok (nodes ++ [mkGpuNode nm ready gpu_count (if ready then "Ready" else "NotReady")
                  instance_type profile.(gpu_model) profile.(efa) profile.(description)]).

(** [except (json.JSONDecodeError, KeyError)]. *)
Definition catch_key_error {A : Type} (default : A) (r : res A) : res A :=
  match r with Raise KeyError => Ok default | _ => r end.

Definition _get_gpu_nodes (out : kubectl_result) : res (list gpu_node) :=
  if negb (Z.eqb out.(rc) 0) then Ok [] else
  match out.(stdout_json) with
  | None => Ok []
  | Some data =>
      catch_key_error []
        (items <- py_get data "items" (JArr []) ;;
         its <- py_iter items ;;
         res_fold gpu_node_step its [])
  end.

Definition active_phase (phase : json) : bool :=
  py_eq_str phase "Running" || py_eq_str phase "Pending" || py_eq_str phase "ContainerCreating".

(** One iteration of the pod loop; the set is held as its added members. *)
Definition busy_step (busy : list json) (item : json) : res (list json) :=
  st <- py_get item "status" (JObj []) ;;
  phase <- py_get st "phase" (JStr "") ;;
  if active_phase phase then
    spec <- py_get item "spec" (JObj []) ;;
    node_name <- py_get spec "nodeName" (JStr "") ;;
    if py_truthy node_name then
      match node_name with
      | JArr _ | JObj _ => Raise TypeError
      | _ => Ok (busy ++ [node_name])
      end
    else Ok busy
  else Ok busy.

Definition _get_busy_nodes (out : kubectl_result) : res (list json) :=
  if negb (Z.eqb out.(rc) 0) then Ok [] else
  match out.(stdout_json) with
  | None => Ok []
  | Some data =>
      catch_key_error []
        (items <- py_get data "items" (JArr []) ;;
         its <- py_iter items ;;
         res_fold busy_step its [])
  end.

(** The pod [item] occupies node [b]: an active phase and a non-empty
    [spec.nodeName] equal to [b]. *)
Definition pod_occupies (item b : json) : Prop :=
  exists st phase spec,
    py_get item "status" (JObj []) = Ok st /\ py_get st "phase" (JStr "") = Ok phase /\
    active_phase phase = true /\
    py_get item "spec" (JObj []) = Ok spec /\ py_get spec "nodeName" (JStr "") = Ok b /\
    py_truthy b = true.

(* ------------------------------------------------------------------ *)
(** ** Automatic occupation and the patrol loop ([_auto_occupy], [_auto_patrol]) *)

(** [_auto_occupy] after its own inventory reads: [apply_ok job_name] is
    the success flag [apply_yaml] returns for the manifest of [job_name]. *)
Definition _auto_occupy (all_nodes : list node) (busy_nodes : list string) (date_str : string)
  (existing_names : list string) (combos : list (string * string)) (rnd : nat -> nat)
  (apply_ok : string -> bool) : nat :=
  match all_nodes with
  | [] => 0
  | _ =>
      match free_nodes all_nodes busy_nodes with
      | [] => 0
      | free =>
          let plan := batch_plan free in
          let job_names :=
            _generate_random_job_names (List.length plan) date_str existing_names combos rnd in
          let success_count := List.length (filter apply_ok job_names) in
          let total_nodes := list_sum (map fst plan) in
          if Nat.ltb 0 success_count then total_nodes else 0
      end
  end.

(** Nodes of the batches whose submission succeeded. *)
Definition succeeded_nodes (plan : list (nat * string)) (job_names : list string)
  (apply_ok : string -> bool) : nat :=
  list_sum (map (fun bj => fst (fst bj)) (filter (fun bj => apply_ok (snd bj)) (combine plan job_names))).

(** Exceptions reaching the patrol body: an [Exception] (caught by
    [except Exception]) or the operator's [KeyboardInterrupt]. *)
Inductive patrol_exn := PyException | KeyboardInterrupt.

(** What the body of the inner [try] does in one cycle. *)
Inductive cycle_event :=
| CycleFull                              (* free_count == 0 *)
| CycleOccupied (occupied : nat)         (* _auto_occupy returned occupied *)
| CycleRaised (e : patrol_exn)           (* raised in inventory .. submission *)
| CycleReportRaised (occupied : nat).    (* raised by the report after the add *)

Inductive sleep_event := SleepDone | SleepInterrupted.

Record patrol_state := mkPatrol {
  round_num : nat;
  total_occupied : nat
}.

Inductive patrol_result :=
| Running (st : patrol_state)
| Stopped (total_rounds : nat) (total_nodes : nat).   (* the final report *)

Definition add_occupied (st : patrol_state) (occupied : nat) : patrol_state :=
  if Nat.ltb 0 occupied then mkPatrol st.(round_num) (st.(total_occupied) + occupied) else st.

Definition after_body (st : patrol_state) (sl : sleep_event) : patrol_result :=
  match sl with
  | SleepDone => Running st
  | SleepInterrupted => Stopped st.(round_num) st.(total_occupied)
  end.

(** One iteration of [while True]. *)
Definition patrol_cycle (st : patrol_state) (ev : cycle_event) (sl : sleep_event) : patrol_result :=
  let st1 := mkPatrol (S st.(round_num)) st.(total_occupied) in
  match ev with
  | CycleFull => after_body st1 sl
  | CycleOccupied occupied => after_body (add_occupied st1 occupied) sl
  | CycleRaised PyException => after_body st1 sl
  | CycleRaised KeyboardInterrupt => Stopped st1.(round_num) st1.(total_occupied)
  | CycleReportRaised occupied => after_body (add_occupied st1 occupied) sl
  end.

(** The loop over a finite prefix of cycles. *)
Fixpoint patrol_run (st : patrol_state) (evs : list (cycle_event * sleep_event)) : patrol_result :=
  match evs with
  | [] => Running st
  | (ev, sl) :: r =>
      match patrol_cycle st ev sl with
      | Running st' => patrol_run st' r
      | stopped => stopped
      end
  end.

Definition cycle_gain (ev : cycle_event) : nat :=
  match ev with
  | CycleOccupied o | CycleReportRaised o => o
  | _ => 0
  end.

Definition operator_interrupt (ev : cycle_event) (sl : sleep_event) : Prop :=
  ev = CycleRaised KeyboardInterrupt \/ sl = SleepInterrupted.

(* ------------------------------------------------------------------ *)
(** ** Manifest files ([_generate_occupy_yamls]) and their names *)

Fixpoint has_slash (s : string) : bool :=
  match s with
  | EmptyString => false
  | String c r => Ascii.eqb c "/" || has_slash r
  end.

Fixpoint ends_with_slash (s : string) : bool :=
  match s with
  | EmptyString => false
  | String c EmptyString => Ascii.eqb c "/"
  | String _ r => ends_with_slash r
  end.

(** [os.path.join(a, b)] (posixpath, two arguments). *)
Definition os_path_join (a b : string) : string :=
  match b with
  | String "/" _ => b
  | _ => if String.eqb a "" || ends_with_slash a then a ++ b else a ++ "/" ++ b
  end.

(** [os.path.basename(p)]: what follows the last [/]. *)
Fixpoint basename (p : string) : string :=
  match p with
  | EmptyString => EmptyString
  | String c r => if has_slash r then basename r else if Ascii.eqb c "/" then r else p
  end.

(** [s.replace(pat, rep)] for a non-empty [pat]: left to right, without
    overlaps; [fuel] bounds the scan. *)
Fixpoint replace_go (fuel : nat) (pat rep s : string) : string :=
  match fuel with
  | O => s
  | S f =>
      match s with
      | EmptyString => EmptyString
      | String c r =>
          match strip_prefix pat s with
          | Some rest => rep ++ replace_go f pat rep rest
          | None => String c (replace_go f pat rep r)
          end
      end
  end.

Definition py_replace (pat rep s : string) : string :=
  replace_go (String.length s) pat rep s.

(** One iteration of the loop, from batch [i] on; [None]: an exception
    ([IndexError] on [job_names[i]], or the builder's); files written
    before it stay on disk. *)
Fixpoint gen_yamls_go (yaml_dir namespace : string) (job_names : list string) (i : nat)
  (plan : list (nat * string)) : option (list (string * yval)) :=
  match plan with
  | [] => Some []
  | (batch_size, itype) :: r =>
      let worker_count := (Z.of_nat batch_size - 1)%Z in
      match nth_error job_names i with
      | None => None
      | Some job_name =>
          match _build_occupy_yaml job_name namespace worker_count itype with
          | None => None
          | Some m =>
              option_map (cons (os_path_join yaml_dir (job_name ++ ".yaml"), m))
                         (gen_yamls_go yaml_dir namespace job_names (S i) r)
          end
      end
  end.

(** The files written: path and the document dumped into it. *)
Definition _generate_occupy_yamls (yaml_dir : string) (batch_plan : list (nat * string))
  (namespace : string) (job_names : list string) : option (list (string * yval)) :=
  gen_yamls_go yaml_dir namespace job_names 0 batch_plan.

(** [os.path.basename(yaml_file).replace(".yaml", "")] in the submission loop. *)
Definition submitted_job_name (yaml_file : string) : string :=
  py_replace ".yaml" "" (basename yaml_file).

(** Nodes a manifest asks for, read with the defaults of
    [_delete_occupy_jobs]: Master replicas (1 if absent) plus Worker
    replicas (0 if absent). *)
Definition replicas_or (role : string) (default : Z) (m : yval) : Z :=
  match ypath ["spec"; "pytorchReplicaSpecs"; role; "replicas"] m with
  | Some (YInt z) => z
  | _ => default
  end.

Definition manifest_nodes (m : yval) : Z :=
  (replicas_or "Master" 1 m + replicas_or "Worker" 0 m)%Z.

Definition manifest_selector (role : string) (m : yval) : option yval :=
  ypath ["spec"; "pytorchReplicaSpecs"; role; "template"; "spec"; "nodeSelector";
         "node.kubernetes.io/instance-type"] m.

Fixpoint has_dot (s : string) : bool :=
  match s with
  | EmptyString => false
  | String c r => Ascii.eqb c "." || has_dot r
  end.

(* ------------------------------------------------------------------ *)
(** ** The job listing of [_delete_occupy_jobs] *)


(** [a + b] on decoded JSON values ([bool] is an [int]). *)
Definition py_add (a b : json) : res json :=
  match a, b with
  | (JNum _ | JBool _), (JNum _ | JBool _) =>
      let num v := match v with JNum z => z | JBool true => 1%Z | _ => 0%Z end in
      Ok (JNum (num a + num b))
  | JStr s, JStr t => Ok (JStr (s ++ t))
  | JArr l, JArr l' => Ok (JArr (l ++ l'))
  | _, _ => Raise TypeError
  end.










(** Python's [str.split()] and [str.strip()] whitespace on ASCII text. *)
Definition py_isspace (c : ascii) : bool :=
  match nat_of_ascii c with
  | 9 | 10 | 11 | 12 | 13 | 28 | 29 | 30 | 31 | 32 => true
  | _ => false
  end.

Fixpoint drop_ws (l : list ascii) : list ascii :=
  match l with
  | c :: r => if py_isspace c then drop_ws r else l
  | [] => []
  end.

Definition py_strip (s : string) : string :=
  string_of_list_ascii (rev (drop_ws (rev (drop_ws (list_ascii_of_string s))))).

(** [str.split()]: maximal runs of non-whitespace, [cur] the current run
    reversed. *)
Fixpoint split_ws_go (l : list ascii) (cur : list ascii) : list string :=
  match l with
  | [] => match cur with [] => [] | _ => [string_of_list_ascii (rev cur)] end
  | c :: r =>
      if py_isspace c then
        match cur with
        | [] => split_ws_go r []
        | _ => string_of_list_ascii (rev cur) :: split_ws_go r []
        end
      else split_ws_go r (c :: cur)
  end.

Definition py_split (s : string) : list string := split_ws_go (list_ascii_of_string s) [].

(** [_get_existing_job_names] on the result of
    [kubectl get pytorchjobs -o jsonpath={.items[*].metadata.name}]; the
    set is given by its members. *)
Definition _get_existing_job_names (rc : Z) (stdout : string) : list string :=
  if negb (Z.eqb rc 0) || String.eqb (py_strip stdout) "" then []
  else py_split (py_strip stdout).


(* ------------------------------------------------------------------ *)
(** ** Pod grouping and roles ([utils/kube.py]) *)

(** [s.split(sep)] for a one-character separator. *)
Fixpoint split_sep (sep : ascii) (s : string) : list string :=
  match s with
  | EmptyString => [EmptyString]
  | String c r =>
      let parts := split_sep sep r in
      if Ascii.eqb c sep then EmptyString :: parts
      else match parts with
           | w :: ws => String c w :: ws
           | [] => [String c EmptyString]
           end
  end.

(** [sep.join(parts)]. *)
Fixpoint join_sep (sep : string) (l : list string) : string :=
  match l with
  | [] => EmptyString
  | [w] => w
  | w :: r => w ++ sep ++ join_sep sep r
  end.

Fixpoint find_role_part (parts : list string) (i : nat) : option nat :=
  match parts with
  | [] => None
  | p :: r => if String.eqb p "head" || String.eqb p "worker" then Some i
              else find_role_part r (S i)
  end.

Definition _infer_job_name (pod_name : string) : string :=
  let parts := split_sep "-" pod_name in
  match find_role_part parts 0 with
  | Some i => join_sep "-" (firstn i parts)
  | None =>
      if Nat.ltb 2 (List.length parts)
      then join_sep "-" (firstn (List.length parts - 2) parts)
      else pod_name
  end.

(** The pod dicts of [get_pods], with the fields grouping and roles read;
    label values are strings. *)
Record pod := mkPod {
  pod_name : string;
  pod_labels : list (string * string)
}.

Definition label_get (k : string) (labels : list (string * string)) : string :=
  dict_get k labels "".

(** [a or b] on strings. *)
Definition py_or_str (a b : string) : string := if String.eqb a "" then b else a.

(** The key [group_pods_by_job] files a pod under. *)
Definition pod_job_key (p : pod) : string :=
  let job_name :=
    py_or_str (label_get "ray.io/cluster" p.(pod_labels))
      (py_or_str (label_get "ray.io/job-name" p.(pod_labels))
                 (label_get "app.kubernetes.io/instance" p.(pod_labels))) in
  if String.eqb job_name "" then _infer_job_name p.(pod_name) else job_name.

(** [groups[k].append(x)] on an insertion-ordered [defaultdict(list)]. *)
Fixpoint dd_append {A : Type} (k : string) (x : A) (d : list (string * list A))
  : list (string * list A) :=
  match d with
  | [] => [(k, [x])]
  | (k', l) :: r =>
      if String.eqb k k' then (k', l ++ [x]) :: r else (k', l) :: dd_append k x r
  end.

Definition group_pods_by_job (pods : list pod) : list (string * list pod) :=
  fold_left (fun d p => dd_append (pod_job_key p) p d) pods [].

Definition ascii_upper (c : ascii) : ascii :=
  let k := nat_of_ascii c in
  if Nat.leb 97 k && Nat.leb k 122 then ascii_of_nat (k - 32) else c.

(** [str.capitalize()] on ASCII text. *)
Definition py_capitalize (s : string) : string :=
  match s with
  | EmptyString => EmptyString
  | String c r => String (ascii_upper c) (str_lower r)
  end.

(** [p in s] for strings. *)
Fixpoint str_contains (p s : string) : bool :=
  String.prefix p s || match s with EmptyString => false | String _ r => str_contains p r end.

(** [s.endswith(p)]. *)
Fixpoint str_ends_with (p s : string) : bool :=
  String.eqb s p || match s with EmptyString => false | String _ r => str_ends_with p r end.

Definition get_pod_role (p : pod) : string :=
  let name := p.(pod_name) in
  let role := py_capitalize (label_get "ray.io/node-type" p.(pod_labels)) in
  if negb (String.eqb role "") then role
  else if str_contains "-head-" name || str_ends_with "-head" name then "Head"
  else if str_contains "-worker-" name || str_ends_with "-worker" name then "Worker"
  else "Unknown".

(* ------------------------------------------------------------------ *)
(** ** Deleting the selected jobs ([_delete_occupy_jobs], after the listing) *)




(** The totals of the completion message of [_submit_occupy_jobs]. *)
Definition zsum (l : list Z) : Z := fold_right Z.add 0%Z l.



(* ------------------------------------------------------------------ *)
(** ** [get_pods] and [_get_pod_role_name] ([utils/kube.py]) *)

(** [len(v)]. *)
Definition py_len (v : json) : res Z :=
  match v with
  | JArr l => Ok (Z.of_nat (List.length l))
  | JObj kvs => Ok (Z.of_nat (List.length (dict_keys kvs [])))
  | JStr s => Ok (Z.of_nat (String.length s))
  | _ => Raise TypeError
  end.

(** [v[k]] for a string key. *)
Definition py_subscript_str (v : json) (k : string) : res json :=
  match v with
  | JObj kvs => match obj_lookup k kvs with Some x => Ok x | None => Raise KeyError end
  | _ => Raise TypeError
  end.

(** [[f(x) for x in l]]. *)
Fixpoint res_map {A B : Type} (f : A -> res B) (l : list A) : res (list B) :=
  match l with
  | [] => Ok []
  | x :: r => y <- f x ;; ys <- res_map f r ;; Ok (y :: ys)
  end.

(** [v.capitalize()]. *)
Definition py_capitalize_json (v : json) : res string :=
  match v with JStr s => Ok (py_capitalize s) | _ => Raise AttributeError end.

(** [p in v] for a string [p]. *)
Definition py_in_str (p : string) (v : json) : res bool :=
  match v with
  | JStr s => Ok (str_contains p s)
  | JArr l => Ok (existsb (fun x => py_eq_str x p) l)
  | JObj kvs => Ok (set_mem p (dict_keys kvs []))
  | _ => Raise TypeError
  end.

(** [v.endswith(p)]. *)
Definition py_endswith (p : string) (v : json) : res bool :=
  match v with JStr s => Ok (str_ends_with p s) | _ => Raise AttributeError end.

(** [a or b] with [b] evaluated only when [a] is false. *)
Definition py_or (a : res bool) (b : unit -> res bool) : res bool :=
  match a with Ok true => Ok true | Ok false => b tt | Raise e => Raise e end.

Definition _get_pod_role_name (item : json) : res string :=
  md <- py_get item "metadata" (JObj []) ;;
  labels <- py_get md "labels" (JObj []) ;;
  md' <- py_get item "metadata" (JObj []) ;;
  pname <- py_get md' "name" (JStr "") ;;
  nt <- py_get labels "ray.io/node-type" (JStr "") ;;
  role <- py_capitalize_json nt ;;
  if negb (String.eqb role "") then Ok role else
  h <- py_or (py_in_str "-head-" pname) (fun _ => py_endswith "-head" pname) ;;
  if h then Ok "Head" else
  w <- py_or (py_in_str "-worker-" pname) (fun _ => py_endswith "-worker" pname) ;;
  if w then Ok "Worker" else Ok "Unknown".

(** The dict [get_pods] appends for a pod; [ready] is the f-string
    [f"{ready_count}/{total_count}"], kept as its two numbers. *)
Record pod_info := mkPodInfo {
  pi_name : json;
  pi_namespace : json;
  pi_status : json;
  pi_ready_count : Z;
  pi_total_count : Z;
  pi_restarts : json;
  pi_creation : json;
  pi_containers : list json;
  pi_labels : json;
  pi_role : string
}.

Definition pod_info_of (item : json) : res pod_info :=
  metadata <- py_get item "metadata" (JObj []) ;;
  status <- py_get item "status" (JObj []) ;;
  spec <- py_get item "spec" (JObj []) ;;
  cl <- py_get spec "containers" (JArr []) ;;
  cit <- py_iter cl ;;
  containers <- res_map (fun c => py_subscript_str c "name") cit ;;
  container_statuses <- py_get status "containerStatuses" (JArr []) ;;
  sit <- py_iter container_statuses ;;
  ready_count <- res_fold (fun acc cs => r <- py_get cs "ready" (JBool false) ;;
                                         Ok (if py_truthy r then acc + 1 else acc)%Z) sit 0%Z ;;
  total_count <- (if py_truthy container_statuses then py_len container_statuses
                  else Ok (Z.of_nat (List.length containers))) ;;
  sit' <- py_iter container_statuses ;;
  restarts <- res_fold (fun acc cs => v <- py_get cs "restartCount" (JNum 0) ;; py_add acc v)
                       sit' (JNum 0) ;;
  role <- _get_pod_role_name item ;;
  pname <- py_get metadata "name" (JStr "") ;;
  pns <- py_get metadata "namespace" (JStr "") ;;
  phase <- py_get status "phase" (JStr "Unknown") ;;
  creation <- py_get metadata "creationTimestamp" (JStr "") ;;
  labels <- py_get metadata "labels" (JObj []) ;;
  Ok (mkPodInfo pname pns phase ready_count total_count restarts creation containers labels role).

(** [get_pods] on the output of [kubectl get pods -o json]; a [KeyError]
    (or an undecodable output) gives [[]], other exceptions propagate. *)
Definition get_pods (out : kubectl_result) : res (list pod_info) :=
  if negb (Z.eqb out.(rc) 0) then Ok [] else
  match out.(stdout_json) with
  | None => Ok []
  | Some data =>
      match (items <- py_get data "items" (JArr []) ;;
             it <- py_iter items ;;
             res_map pod_info_of it) with
      | Ok pods => Ok pods
      | Raise KeyError => Ok []
      | Raise e => Raise e
      end
  end.

(** Sample inputs. *)
Definition sample_free_nodes : list node :=
  repeat (mkNode "ip-10-0-1-5" true 8 "Ready" "ml.p4d.24xlarge" "A100" 4 "8xA100 (p4d)") 3 ++
  repeat (mkNode "ip-10-0-2-7" true 8 "Ready" "ml.p5.48xlarge" "H100" 32 "8xH100 (p5)") 5.

Definition sample_job_names : list string :=
  ["run-qwen3-retool-0615-01"; "run-qwen3-retool-0615-02"; "run-qwen3-retool-0615-03";
   "run-qwen3-retool-0615-04"].

Definition sample_pods_out : kubectl_result :=
  mkKubectl 0 (Some (JObj [("items", JArr [
    JObj [("metadata", JObj [("name", JStr "qwen-rl-head-x7k2p"); ("namespace", JStr "default");
                             ("labels", JObj [("ray.io/node-type", JStr "head")])]);
          ("spec", JObj [("containers", JArr [JObj [("name", JStr "ray-head")];
                                              JObj [("name", JStr "sidecar")]])]);
          ("status", JObj [("phase", JStr "Running");
                           ("containerStatuses", JArr [JObj [("ready", JBool true); ("restartCount", JNum 0)];
                                                      JObj [("ready", JBool false); ("restartCount", JNum 2)]])])]])])).

Definition sample_pod_info : pod_info :=
  mkPodInfo (JStr "qwen-rl-head-x7k2p") (JStr "default") (JStr "Running") 1 2 (JNum 2) (JStr "")
    [JStr "ray-head"; JStr "sidecar"] (JObj [("ray.io/node-type", JStr "head")]) "Head".

(* ================================================================== *)
(** * Proofs *)

(* ------------------------------------------------------------------ *)
(** ** Strings: the order used by [sorted] *)

Lemma str_leb_neq_lt (x y : string) :
  String.leb x y = true -> x <> y -> str_lt x y.
Proof.
  unfold String.leb, str_lt, String.ltb. intros Hle Hne.
  destruct (String.compare x y) eqn:Hc; try discriminate; try reflexivity.
  apply String.compare_eq_iff in Hc. contradiction.
Qed.

Lemma str_leb_false_lt (x y : string) :
  String.leb x y = false -> str_lt y x.
Proof.
  unfold String.leb, str_lt, String.ltb. intros Hle.
  rewrite String.compare_antisym.
  destruct (String.compare x y); try discriminate; reflexivity.
Qed.

Lemma str_lt_asym (x y : string) : str_lt x y -> ~ str_lt y x.
Proof.
  unfold str_lt, String.ltb. rewrite (String.compare_antisym y x).
  destruct (String.compare x y); simpl; discriminate.
Qed.

Lemma str_lt_irrefl (x : string) : ~ str_lt x x.
Proof. intros H. exact (str_lt_asym x x H H). Qed.

(* ------------------------------------------------------------------ *)
(** ** Sorting *)

Lemma insert_str_perm (x : string) (l : list string) :
  Permutation (insert_str x l) (x :: l).
Proof.
  induction l as [|y r IH]; simpl; [reflexivity|].
  destruct (String.leb x y); [reflexivity|].
  rewrite IH. apply perm_swap.
Qed.

Lemma sort_str_perm (l : list string) : Permutation (sort_str l) l.
Proof.
  induction l as [|x r IH]; simpl; [reflexivity|].
  rewrite insert_str_perm, IH. reflexivity.
Qed.

Lemma insert_str_hdrel (a x : string) (l : list string) :
  str_lt a x -> HdRel str_lt a l -> HdRel str_lt a (insert_str x l).
Proof.
  intros Hax Hl. destruct l as [|y r]; simpl.
  - constructor. exact Hax.
  - destruct (String.leb x y); constructor; [exact Hax|].
    inversion Hl; assumption.
Qed.

Lemma insert_str_sorted (x : string) (l : list string) :
  Sorted str_lt l -> ~ In x l -> Sorted str_lt (insert_str x l).
Proof.
  induction l as [|y r IH]; simpl; intros Hs Hin.
  - repeat constructor.
  - inversion Hs as [|? ? Hr Hhd]; subst.
    destruct (String.leb x y) eqn:Hle.
    + constructor; [exact Hs|]. constructor.
      apply str_leb_neq_lt; [exact Hle|]. intros ->. apply Hin. left. reflexivity.
    + constructor.
      * apply IH; [exact Hr|]. intros H. apply Hin. right. exact H.
      * apply insert_str_hdrel; [apply str_leb_false_lt; exact Hle | exact Hhd].
Qed.

Lemma sort_str_sorted (l : list string) : NoDup l -> Sorted str_lt (sort_str l).
Proof.
  induction l as [|x r IH]; simpl; intros Hnd; [constructor|].
  inversion Hnd; subst.
  apply insert_str_sorted; [apply IH; assumption|].
  intros H. apply (Permutation_in _ (sort_str_perm r)) in H. contradiction.
Qed.

(* ------------------------------------------------------------------ *)
(** ** Grouping by instance type *)

Lemma setdefault_append_get (t k : string) (n : node) (d : list (string * list node)) :
  dict_get t (setdefault_append k n d) [] =
  if String.eqb t k then dict_get t d [] ++ [n] else dict_get t d [].
Proof.
  induction d as [|[k' l] r IH]; simpl.
  - destruct (String.eqb_spec t k); reflexivity.
  - destruct (String.eqb_spec k k') as [->|Hkk'].
    + simpl. destruct (String.eqb_spec t k'); reflexivity.
    + simpl. destruct (String.eqb_spec t k') as [->|]; [|exact IH].
      destruct (String.eqb_spec k' k); [congruence|reflexivity].
Qed.

Lemma setdefault_append_keys (t k : string) (n : node) (d : list (string * list node)) :
  In t (map fst (setdefault_append k n d)) <-> t = k \/ In t (map fst d).
Proof.
  induction d as [|[k' l] r IH]; simpl.
  - intuition.
  - destruct (String.eqb_spec k k') as [->|]; simpl; rewrite ?IH; intuition.
Qed.

Lemma setdefault_append_nodup (k : string) (n : node) (d : list (string * list node)) :
  NoDup (map fst d) -> NoDup (map fst (setdefault_append k n d)).
Proof.
  induction d as [|[k' l] r IH]; simpl; intros Hnd.
  - repeat constructor. intros [].
  - inversion Hnd as [|? ? Hni Hr]; subst.
    destruct (String.eqb_spec k k') as [->|Hne]; simpl.
    + constructor; assumption.
    + constructor; [|apply IH; exact Hr].
      rewrite setdefault_append_keys. intros [->|H]; [apply Hne; reflexivity|contradiction].
Qed.

Definition group_step (d : list (string * list node)) (n : node) :=
  setdefault_append n.(instance_type) n d.

Lemma count_type_cons (t : string) (n : node) (l : list node) :
  count_type t (n :: l) = (if String.eqb t n.(instance_type) then 1 else 0) + count_type t l.
Proof.
  unfold count_type. simpl. rewrite String.eqb_sym.
  destruct (String.eqb t n.(instance_type)); reflexivity.
Qed.

Lemma group_fold_get (t : string) (l : list node) (d : list (string * list node)) :
  List.length (dict_get t (fold_left group_step l d) []) =
  List.length (dict_get t d []) + count_type t l.
Proof.
  revert d. induction l as [|n r IH]; intros d; simpl.
  - unfold count_type. simpl. lia.
  - rewrite IH. unfold group_step. rewrite setdefault_append_get, count_type_cons.
    destruct (String.eqb t n.(instance_type)); rewrite ?length_app; simpl; lia.
Qed.

Lemma group_fold_keys (t : string) (l : list node) (d : list (string * list node)) :
  In t (map fst (fold_left group_step l d)) <-> In t (map fst d) \/ In t (map instance_type l).
Proof.
  revert d. induction l as [|n r IH]; intros d; simpl.
  - intuition.
  - rewrite IH. unfold group_step. rewrite setdefault_append_keys. intuition.
Qed.

Lemma group_fold_nodup (l : list node) (d : list (string * list node)) :
  NoDup (map fst d) -> NoDup (map fst (fold_left group_step l d)).
Proof.
  revert d. induction l as [|n r IH]; intros d Hd; simpl; [exact Hd|].
  apply IH. apply setdefault_append_nodup. exact Hd.
Qed.

Lemma free_by_type_get (t : string) (free : list node) :
  List.length (dict_get t (free_by_type free) []) = count_type t free.
Proof. apply group_fold_get. Qed.

Lemma free_by_type_keys (t : string) (free : list node) :
  In t (map fst (free_by_type free)) <-> In t (map instance_type free).
Proof. unfold free_by_type. fold group_step. rewrite group_fold_keys. simpl. intuition. Qed.

Lemma free_by_type_nodup (free : list node) : NoDup (map fst (free_by_type free)).
Proof. apply group_fold_nodup. constructor. Qed.

(* ------------------------------------------------------------------ *)
(** ** The batching loop *)

Lemma greedy_spec (n : nat) :
  list_sum (greedy n) = n /\ Forall (fun s => 1 <= s <= DEFAULT_BATCH_SIZE) (greedy n).
Proof.
  induction n as [n IH] using (well_founded_induction lt_wf).
  destruct n as [|[|[|[|r]]]]; simpl; unfold DEFAULT_BATCH_SIZE;
    try (split; [reflexivity|repeat constructor; lia]).
  destruct (IH r ltac:(lia)) as [Hs Hf]. split.
  - simpl in Hs. rewrite Hs. lia.
  - constructor; [lia|exact Hf].
Qed.

Lemma batches_for_zero (fuel : nat) (t : string) : batches_for fuel 0 t = [].
Proof. destruct fuel; reflexivity. Qed.

Lemma batches_for_greedy (fuel r : nat) (t : string) :
  r <= fuel -> batches_for fuel r t = map (fun s => (s, t)) (greedy r).
Proof.
  revert r. induction fuel as [|f IH]; intros r Hr.
  - replace r with 0 by lia. reflexivity.
  - destruct r as [|[|[|[|r']]]]; simpl; rewrite ?batches_for_zero; try reflexivity.
    f_equal. replace (r' - 0) with r' by lia. apply IH. lia.
Qed.

Lemma batch_plan_is_reference (free : list node) :
  batch_plan free = reference_plan (sort_str (map fst (free_by_type free))) free.
Proof.
  unfold batch_plan, reference_plan. apply flat_map_ext. intros t.
  rewrite free_by_type_get. apply batches_for_greedy. lia.
Qed.

Lemma planned_for_block (t t' : string) (l : list nat) :
  planned_for t (map (fun s => (s, t')) l) = if String.eqb t' t then list_sum l else 0.
Proof.
  unfold planned_for. induction l as [|s r IH]; simpl.
  - destruct (String.eqb t' t); reflexivity.
  - destruct (String.eqb t' t); simpl in *; rewrite IH; reflexivity.
Qed.

Lemma planned_for_app (t : string) (p q : list (nat * string)) :
  planned_for t (p ++ q) = planned_for t p + planned_for t q.
Proof. unfold planned_for. rewrite filter_app, map_app, list_sum_app. reflexivity. Qed.

Lemma planned_for_reference (t : string) (types : list string) (free : list node) :
  NoDup types ->
  planned_for t (reference_plan types free) = if in_dec string_dec t types then count_type t free else 0.
Proof.
  induction types as [|t' r IH]; simpl; intros Hnd; [reflexivity|].
  inversion Hnd; subst.
  rewrite planned_for_app, planned_for_block, IH by assumption.
  destruct (String.eqb_spec t' t) as [->|Hne].
  - rewrite (proj1 (greedy_spec _)).
    destruct (in_dec string_dec t r); [contradiction|].
    destruct (string_dec t t); [lia|congruence].
  - destruct (string_dec t' t); [congruence|].
    destruct (in_dec string_dec t r); simpl; reflexivity.
Qed.

Lemma count_type_absent (t : string) (free : list node) :
  ~ In t (map instance_type free) -> count_type t free = 0.
Proof.
  induction free as [|n r IH]; simpl; intros Hn; [reflexivity|].
  rewrite count_type_cons. destruct (String.eqb_spec t n.(instance_type)) as [->|].
  - exfalso. apply Hn. left. reflexivity.
  - simpl. apply IH. intros H. apply Hn. right. exact H.
Qed.

Lemma sorted_singleton_types (X : string) (l : list string) :
  NoDup l -> (forall t, In t l <-> t = X) -> l = [X].
Proof.
  intros Hnd Hm. destruct l as [|a [|b r]].
  - exfalso. apply (proj2 (Hm X) eq_refl).
  - f_equal. apply Hm. left. reflexivity.
  - exfalso. inversion Hnd as [|? ? Hni]; subst.
    assert (a = X) by (apply Hm; left; reflexivity).
    assert (b = X) by (apply Hm; right; left; reflexivity).
    subst. apply Hni. left. reflexivity.
Qed.

Lemma sorted_pair_types (X Y : string) (l : list string) :
  str_lt X Y -> Sorted str_lt l -> NoDup l ->
  (forall t, In t l <-> t = X \/ t = Y) -> l = [X; Y].
Proof.
  intros Hxy Hs Hnd Hm.
  assert (Hne : X <> Y) by (intros ->; exact (str_lt_irrefl Y Hxy)).
  assert (Hlen : List.length l = 2).
  { apply Nat.le_antisymm.
    - change 2 with (List.length [X; Y]). apply NoDup_incl_length; [exact Hnd|].
      intros t Ht. apply Hm in Ht. simpl. intuition.
    - change 2 with (List.length [X; Y]).
      apply NoDup_incl_length; [repeat constructor; simpl; intuition|].
      intros t Ht. apply Hm. simpl in Ht. intuition. }
  destruct l as [|a [|b [|c r]]]; try discriminate.
  inversion Hs as [|? ? _ Hhd]; subst. inversion Hhd; subst.
  inversion Hnd as [|? ? Hni]; subst.
  assert (Ha : a = X \/ a = Y) by (apply Hm; left; reflexivity).
  assert (Hb : b = X \/ b = Y) by (apply Hm; right; left; reflexivity).
  destruct Ha as [->| ->]; destruct Hb as [->| ->].
  - exfalso. apply Hni. left. reflexivity.
  - reflexivity.
  - exfalso. eapply str_lt_asym; eassumption.
  - exfalso. apply Hni. left. reflexivity.
Qed.

Lemma count_type_all (X : string) (free : list node) :
  Forall (fun n => n.(instance_type) = X) free -> count_type X free = List.length free.
Proof.
  induction free as [|n r IH]; simpl; intros Hf; [reflexivity|].
  inversion Hf; subst. rewrite count_type_cons, String.eqb_refl, IH by assumption. reflexivity.
Qed.

Lemma count_type_pos_in (t : string) (free : list node) :
  0 < count_type t free -> In t (map instance_type free).
Proof.
  intros H. destruct (in_dec string_dec t (map instance_type free)) as [|Hn]; [assumption|].
  rewrite count_type_absent in H by exact Hn. lia.
Qed.

(* ------------------------------------------------------------------ *)
(** ** Claims on the free list, the planner and the profile table *)

(** A node that is NotReady and hosts no active pod. *)
Definition not_ready_node : node :=
  mkNode "ip-10-0-0-1" false 8 "NotReady" "ml.p5.48xlarge" "H100" 32 "8×H100 (p5)".

(** C1 (counterexample): the free list is not the set of nodes that are
    both non-busy and ready: a NotReady node that no active pod occupies is
    in the free list of [_submit_occupy_jobs] and [_auto_occupy]. *)
Lemma free_nodes_ignores_ready :
  ~ (forall all_nodes busy_nodes n,
        In n (free_nodes all_nodes busy_nodes) <->
        In n all_nodes /\ spec_is_free busy_nodes n = true).
Proof.
  intros H. specialize (H [not_ready_node] [] not_ready_node).
  assert (Hin : In not_ready_node (free_nodes [not_ready_node] [])) by (left; reflexivity).
  apply H in Hin. destruct Hin as [_ Hf]. discriminate Hf.
Qed.

(** C1 (amended): a node is in the computed free list if and only if it is
    in the node list and its name is not in the busy-node set; its ready
    flag is not consulted. *)
Theorem free_nodes_spec (all_nodes : list node) (busy_nodes : list string) (n : node) :
  In n (free_nodes all_nodes busy_nodes) <->
  In n all_nodes /\ set_mem n.(name) busy_nodes = false.
Proof.
  unfold free_nodes. rewrite filter_In.
  destruct (set_mem n.(name) busy_nodes); simpl; intuition.
Qed.

(** C2: the batch plan is the greedy partition: instance types in
    ascending order, each cut into batches of [min(4, remaining)]; every
    batch has size 1..4 and the sizes of a type sum to its free count;
    10 free nodes of one type give [4,4,2], and [{X:5, Y:3}] with [X < Y]
    gives X:[4,1] then Y:[3]. *)
Theorem batch_plan_greedy :
  (forall free, exists types,
      Sorted str_lt types /\ NoDup types /\
      (forall t, In t types <-> In t (map instance_type free)) /\
      batch_plan free = reference_plan types free)
  /\ (forall free b, In b (batch_plan free) -> 1 <= fst b <= DEFAULT_BATCH_SIZE)
  /\ (forall free t, planned_for t (batch_plan free) = count_type t free)
  /\ (forall free X, List.length free = 10 ->
        Forall (fun n => n.(instance_type) = X) free ->
        batch_plan free = [(4, X); (4, X); (2, X)])
  /\ (forall free X Y, str_lt X Y ->
        count_type X free = 5 -> count_type Y free = 3 ->
        Forall (fun n => n.(instance_type) = X \/ n.(instance_type) = Y) free ->
        batch_plan free = [(4, X); (1, X); (3, Y)]).
Proof.
  assert (Hchar : forall free, exists types,
      Sorted str_lt types /\ NoDup types /\
      (forall t, In t types <-> In t (map instance_type free)) /\
      batch_plan free = reference_plan types free).
  { intros free. exists (sort_str (map fst (free_by_type free))).
    pose proof (sort_str_perm (map fst (free_by_type free))) as Hp.
    pose proof (free_by_type_nodup free) as Hnd.
    split; [apply sort_str_sorted; exact Hnd|].
    split; [apply (Permutation_NoDup (Permutation_sym Hp)); exact Hnd|].
    split; [|apply batch_plan_is_reference].
    intros t. rewrite <- free_by_type_keys. split; apply Permutation_in;
      [exact Hp|apply Permutation_sym; exact Hp]. }
  split; [exact Hchar|].
  split.
  { intros free [s t] Hb. destruct (Hchar free) as (types & _ & _ & _ & Heq).
    rewrite Heq in Hb. unfold reference_plan in Hb.
    apply in_flat_map in Hb. destruct Hb as (t' & _ & Hb).
    apply in_map_iff in Hb. destruct Hb as (s' & Hs & Hin). inversion Hs; subst.
    pose proof (proj2 (greedy_spec (count_type t free))) as Hf.
    rewrite Forall_forall in Hf. exact (Hf s Hin). }
  split.
  { intros free t. destruct (Hchar free) as (types & _ & Hnd & Hm & Heq).
    rewrite Heq, planned_for_reference by exact Hnd.
    destruct (in_dec string_dec t types) as [|Hn]; [reflexivity|].
    symmetry. apply count_type_absent. rewrite <- Hm. exact Hn. }
  split.
  { intros free X Hlen Hall. destruct (Hchar free) as (types & _ & Hnd & Hm & Heq).
    assert (Htypes : types = [X]).
    { apply sorted_singleton_types; [exact Hnd|]. intros t. rewrite Hm. split.
      - intros Hi. apply in_map_iff in Hi. destruct Hi as (n & <- & Hn).
        rewrite Forall_forall in Hall. apply Hall. exact Hn.
      - intros ->. destruct free as [|n r]; [discriminate|].
        inversion Hall; subst. left. reflexivity. }
    rewrite Heq, Htypes. unfold reference_plan. simpl.
    rewrite count_type_all, Hlen by exact Hall. reflexivity. }
  { intros free X Y Hxy HX HY Hall. destruct (Hchar free) as (types & Hs & Hnd & Hm & Heq).
    assert (Htypes : types = [X; Y]).
    { apply sorted_pair_types; try assumption. intros t. rewrite Hm. split.
      - intros Hi. apply in_map_iff in Hi. destruct Hi as (n & <- & Hn).
        rewrite Forall_forall in Hall. apply Hall. exact Hn.
      - intros [-> | ->]; apply count_type_pos_in; lia. }
    rewrite Heq, Htypes. unfold reference_plan. simpl. rewrite HX, HY. reflexivity. }
Qed.

(** Ten free nodes of one instance type. *)
Definition ten_p5_nodes : list node :=
  repeat (mkNode "ip-10-0-0-2" true 8 "Ready" "ml.p5.48xlarge" "H100" 32 "8×H100 (p5)") 10.

Lemma batch_plan_greedy_witness :
  List.length ten_p5_nodes = 10 /\
  Forall (fun n => n.(instance_type) = "ml.p5.48xlarge") ten_p5_nodes /\
  batch_plan ten_p5_nodes = [(4, "ml.p5.48xlarge"); (4, "ml.p5.48xlarge"); (2, "ml.p5.48xlarge")].
Proof.
  assert (H1 : List.length ten_p5_nodes = 10) by reflexivity.
  assert (H2 : Forall (fun n => n.(instance_type) = "ml.p5.48xlarge") ten_p5_nodes)
    by (repeat constructor).
  split; [exact H1|]. split; [exact H2|].
  exact (proj1 (proj2 (proj2 (proj2 batch_plan_greedy))) ten_p5_nodes "ml.p5.48xlarge" H1 H2).
Defined.

(** C6: the profile lookup is total; an instance type absent from the
    table resolves to the default profile: 8 GPUs, 16 EFA devices and GPU
    model "Unknown". *)
Theorem unknown_instance_profile (instance_type : string) :
  ~ In instance_type (map fst GPU_INSTANCE_PROFILES) ->
  _get_instance_profile instance_type = DEFAULT_GPU_PROFILE /\
  DEFAULT_GPU_PROFILE.(gpus) = 8%Z /\ DEFAULT_GPU_PROFILE.(efa) = 16%Z /\
  DEFAULT_GPU_PROFILE.(gpu_model) = "Unknown".
Proof.
  intros Hn. split; [|repeat split].
  unfold _get_instance_profile.
  induction GPU_INSTANCE_PROFILES as [|[k v] r IH]; simpl in *; [reflexivity|].
  destruct (String.eqb_spec instance_type k) as [->|].
  - exfalso. apply Hn. left. reflexivity.
  - apply IH. intros H. apply Hn. right. exact H.
Qed.

Lemma unknown_instance_profile_witness :
  ~ In "totally-unknown-type" (map fst GPU_INSTANCE_PROFILES) /\
  _get_instance_profile "totally-unknown-type" = DEFAULT_GPU_PROFILE.
Proof.
  assert (H : ~ In "totally-unknown-type" (map fst GPU_INSTANCE_PROFILES)).
  { simpl. intros H. repeat destruct H as [H|H]; discriminate || contradiction. }
  split; [exact H|]. exact (proj1 (unknown_instance_profile "totally-unknown-type" H)).
Defined.

(* ------------------------------------------------------------------ *)
(** ** Decimal formatting and the sequence-number match *)

Lemma str_app_assoc (a b c : string) : ((a ++ b) ++ c = a ++ (b ++ c))%string.
Proof. induction a as [|x r IH]; simpl; [reflexivity|]. rewrite IH. reflexivity. Qed.

Lemma set_mem_false (x : string) (l : list string) : set_mem x l = false <-> ~ In x l.
Proof.
  unfold set_mem. split.
  - intros H Hin. assert (Ht : existsb (String.eqb x) l = true).
    { apply existsb_exists. exists x. split; [exact Hin|apply String.eqb_refl]. }
    congruence.
  - intros Hn. destruct (existsb (String.eqb x) l) eqn:E; [|reflexivity].
    apply existsb_exists in E. destruct E as (y & Hy & Heq).
    apply String.eqb_eq in Heq. subst. contradiction.
Qed.

Definition dec_step (acc d : nat) : nat := acc * 10 + d.

Lemma digits_of_value (f n : nat) : n <= f -> fold_left dec_step (digits_of f n) 0 = n.
Proof.
  revert n. induction f as [|f IH]; intros n Hn; cbn [digits_of].
  - simpl. lia.
  - destruct (Nat.eqb_spec n 0) as [->|Hnz]; [reflexivity|].
    rewrite fold_left_app, IH; cbn [fold_left].
    + unfold dec_step. pose proof (Nat.div_mod_eq n 10). lia.
    + assert (n / 10 < n) by (apply Nat.div_lt; lia). lia.
Qed.

Lemma digits_of_small (f n : nat) : Forall (fun d => d < 10) (digits_of f n).
Proof.
  revert n. induction f as [|f IH]; intros n; cbn [digits_of]; [constructor|].
  destruct (Nat.eqb n 0); [constructor|].
  apply Forall_app. split; [apply IH|]. constructor; [apply Nat.mod_upper_bound; lia|constructor].
Qed.

Lemma digits_of_nonempty (n : nat) : n <> 0 -> digits_of n n <> [].
Proof.
  intros Hn. destruct n as [|f]; [contradiction|]. cbn [digits_of].
  destruct (Nat.eqb_spec (S f) 0); [lia|]. intros H. apply app_eq_nil in H.
  destruct H as [_ H]. discriminate.
Qed.

Lemma nat_of_digit_char (d : nat) : d < 10 -> nat_of_ascii (digit_char d) = 48 + d.
Proof. intros Hd. unfold digit_char. apply Ascii.nat_ascii_embedding. lia. Qed.

Lemma parse_digit_chars (ds : list nat) (acc : nat) :
  Forall (fun d => d < 10) ds ->
  fold_left (fun acc c => acc * 10 + digit_val c) (map digit_char ds) acc = fold_left dec_step ds acc.
Proof.
  revert acc. induction ds as [|d r IH]; intros acc Hf; simpl; [reflexivity|].
  inversion Hf; subst. unfold digit_val at 2. rewrite nat_of_digit_char by assumption.
  replace (48 + d - 48) with d by lia. apply IH. assumption.
Qed.

Lemma parse_dec_zeros (k : nat) (s : string) : parse_dec (zeros k ++ s)%string = parse_dec s.
Proof. induction k as [|k IH]; [reflexivity|]. exact IH. Qed.

Lemma parse_format_02d (n : nat) : parse_dec (format_02d n) = n.
Proof.
  unfold format_02d. rewrite parse_dec_zeros. unfold nat_to_dec.
  destruct (Nat.eqb_spec n 0) as [->|Hn]; [reflexivity|].
  unfold parse_dec. rewrite list_ascii_of_string_of_list_ascii.
  rewrite parse_digit_chars by apply digits_of_small. apply digits_of_value. lia.
Qed.

Fixpoint all_digits (s : string) : bool :=
  match s with
  | EmptyString => true
  | String c r => is_digit c && all_digits r
  end.

Lemma take_digits_all (s : string) : all_digits s = true -> take_digits s = (s, EmptyString).
Proof.
  induction s as [|c r IH]; simpl; [reflexivity|].
  intros H. apply andb_true_iff in H. destruct H as [Hc Hr]. rewrite Hc, IH by exact Hr. reflexivity.
Qed.

Lemma is_digit_char (d : nat) : d < 10 -> is_digit (digit_char d) = true.
Proof.
  intros Hd. unfold is_digit. rewrite nat_of_digit_char by exact Hd.
  apply andb_true_iff. split; apply Nat.leb_le; lia.
Qed.

Lemma all_digits_chars (ds : list nat) :
  Forall (fun d => d < 10) ds -> all_digits (string_of_list_ascii (map digit_char ds)) = true.
Proof.
  induction ds as [|d r IH]; intros Hf; cbn [map string_of_list_ascii all_digits]; [reflexivity|].
  inversion Hf; subst. rewrite is_digit_char, IH by assumption. reflexivity.
Qed.

Lemma all_digits_format_02d (n : nat) : all_digits (format_02d n) = true.
Proof.
  unfold format_02d. generalize (2 - String.length (nat_to_dec n)) as k.
  induction k as [|k IH]; cbn [zeros String.append all_digits]; [|exact IH].
  unfold nat_to_dec. destruct (Nat.eqb n 0); [reflexivity|].
  apply all_digits_chars. apply digits_of_small.
Qed.

Lemma format_02d_nonempty (n : nat) : String.eqb (format_02d n) "" = false.
Proof.
  unfold format_02d, nat_to_dec. destruct (Nat.eqb_spec n 0); [reflexivity|].
  destruct (digits_of n n) as [|d r] eqn:E; [exfalso; exact (digits_of_nonempty n n0 E)|].
  destruct (2 - _); reflexivity.
Qed.

Lemma strip_prefix_app (p s : string) : strip_prefix p (p ++ s)%string = Some s.
Proof. induction p as [|c r IH]; simpl; [reflexivity|]. rewrite Ascii.eqb_refl. exact IH. Qed.

Lemma match_seq_candidate (prefix : string) (n : nat) :
  match_seq prefix (prefix ++ "-" ++ format_02d n)%string = Some n.
Proof.
  unfold match_seq. rewrite <- str_app_assoc, strip_prefix_app.
  rewrite take_digits_all by apply all_digits_format_02d.
  rewrite format_02d_nonempty. simpl. rewrite parse_format_02d. reflexivity.
Qed.

Lemma max_idx_fold_ge (prefix : string) (used : list string) (acc : nat) :
  acc <= fold_left (fun acc e => match match_seq prefix e with
                                 | Some k => Nat.max acc k
                                 | None => acc
                                 end) used acc /\
  (forall e k, In e used -> match_seq prefix e = Some k ->
     k <= fold_left (fun acc e => match match_seq prefix e with
                                  | Some k => Nat.max acc k
                                  | None => acc
                                  end) used acc).
Proof.
  revert acc. induction used as [|e r IH]; intros acc; simpl.
  - split; [lia|intros _ _ []].
  - destruct (match_seq prefix e) as [k0|] eqn:He.
    + destruct (IH (Nat.max acc k0)) as [H1 H2]. split; [lia|].
      intros e' k [<-|Hin] Hm; [|exact (H2 e' k Hin Hm)].
      rewrite He in Hm. inversion Hm; subst. lia.
    + destruct (IH acc) as [H1 H2]. split; [exact H1|].
      intros e' k [<-|Hin] Hm; [congruence|exact (H2 e' k Hin Hm)].
Qed.

(** The first candidate is never among the names already used. *)
Lemma candidate_fresh (combos : list (string * string)) (date_str : string)
  (existing_names names : list string) (combo_idx : nat) :
  ~ In (candidate combos date_str existing_names names combo_idx) (existing_names ++ names).
Proof.
  unfold candidate. destruct (nth _ combos ("", "")) as [model task].
  set (prefix := name_prefix model task date_str). intros Hin.
  pose proof (proj2 (max_idx_fold_ge prefix (existing_names ++ names) 0) _ _ Hin
                (match_seq_candidate prefix _)) as H.
  unfold max_idx in H. lia.
Qed.

Lemma search_first (fuel : nat) (combos : list (string * string)) (date_str : string)
  (existing_names names : list string) (combo_idx : nat) :
  0 < fuel ->
  search fuel combos date_str existing_names names combo_idx =
  (Some (candidate combos date_str existing_names names combo_idx), S combo_idx).
Proof.
  intros Hf. destruct fuel as [|f]; [lia|]. simpl.
  pose proof (candidate_fresh combos date_str existing_names names combo_idx) as Hc.
  rewrite in_app_iff in Hc.
  assert (H1 : set_mem (candidate combos date_str existing_names names combo_idx) existing_names = false)
    by (apply set_mem_false; tauto).
  assert (H2 : set_mem (candidate combos date_str existing_names names combo_idx) names = false)
    by (apply set_mem_false; tauto).
  rewrite H1, H2. reflexivity.
Qed.

Lemma gen_loop_first (k : nat) (combos : list (string * string)) (date_str : string)
  (existing_names : list string) (rnd : nat -> nat) (i : nat) (names : list string) (combo_idx : nat) :
  combos <> [] ->
  gen_loop k combos date_str existing_names rnd i names combo_idx =
  first_candidates k combos date_str existing_names names combo_idx.
Proof.
  intros Hc. revert i names combo_idx. induction k as [|k IH]; intros i names combo_idx; simpl;
    [reflexivity|].
  rewrite search_first; [apply IH|].
  destruct combos; [contradiction|]. simpl. lia.
Qed.

Lemma first_candidates_props (k : nat) (combos : list (string * string)) (date_str : string)
  (existing_names names : list string) (combo_idx : nat) :
  NoDup names -> (forall x, In x names -> ~ In x existing_names) ->
  let ns := first_candidates k combos date_str existing_names names combo_idx in
  List.length ns = List.length names + k /\ NoDup ns /\ (forall x, In x ns -> ~ In x existing_names).
Proof.
  revert names combo_idx. induction k as [|k IH]; intros names combo_idx Hnd Hdis; simpl.
  - split; [lia|split; assumption].
  - pose proof (candidate_fresh combos date_str existing_names names combo_idx) as Hc.
    rewrite in_app_iff in Hc.
    destruct (IH (names ++ [candidate combos date_str existing_names names combo_idx]) (S combo_idx))
      as (Hl & Hn & Hd).
    + apply NoDup_app; [exact Hnd|repeat constructor; intros []|].
      intros x Hx [<-|[]]. tauto.
    + intros x Hx. apply in_app_iff in Hx. destruct Hx as [Hx|[<-|[]]]; [exact (Hdis x Hx)|tauto].
    + split; [rewrite Hl, length_app; simpl; lia|split; assumption].
Qed.

Lemma base_combos_nonempty (combos : list (string * string)) :
  Permutation combos base_combos -> combos <> [].
Proof.
  intros Hp ->. apply Permutation_length in Hp. discriminate.
Qed.

(* ------------------------------------------------------------------ *)
(** ** Claims on the job-name generator *)

Definition scenario_c_existing : list string :=
  ["run-qwen3-retool-0615-01"; "run-qwen3-retool-0615-02"].

(** C3: for every request count, date and existing-name set (and every
    shuffle of the combinations), the generator returns exactly [count]
    names, pairwise distinct and none of them in the existing set. *)
Theorem generated_names_unique (count : nat) (date_str : string)
  (existing_names : list string) (combos : list (string * string)) (rnd : nat -> nat) :
  Permutation combos base_combos ->
  let ns := _generate_random_job_names count date_str existing_names combos rnd in
  List.length ns = count /\ NoDup ns /\ (forall x, In x ns -> ~ In x existing_names).
Proof.
  intros Hp. unfold _generate_random_job_names.
  rewrite gen_loop_first by (apply base_combos_nonempty; exact Hp).
  destruct (first_candidates_props count combos date_str existing_names [] 0) as (Hl & Hn & Hd).
  - constructor.
  - intros x [].
  - split; [exact Hl|split; assumption].
Qed.

Lemma generated_names_unique_witness :
  Permutation base_combos base_combos /\
  List.length (_generate_random_job_names 3 "0615" scenario_c_existing base_combos (fun _ => 50)) = 3.
Proof.
  split; [apply Permutation_refl|].
  exact (proj1 (generated_names_unique 3 "0615" scenario_c_existing base_combos (fun _ => 50)
                  (Permutation_refl base_combos))).
Defined.

(** C4 (code bug): the sequence number is [max + 1] padded to at least two
    digits, so once a prefix has reached 99 the generator emits a
    three-digit name, which [OCCUPY_NAME_PATTERN] (the [\d{2}] format the
    module documents) rejects. Scenario C holds as stated. *)
Theorem job_name_sequence_overflow :
  _generate_random_job_names 1 "0615" scenario_c_existing base_combos (fun _ => 50) =
    ["run-qwen3-retool-0615-03"] /\
  match_occupy_name "run-qwen3-retool-0615-03" = true /\
  _generate_random_job_names 1 "0615" ["run-qwen3-retool-0615-99"] base_combos (fun _ => 50) =
    ["run-qwen3-retool-0615-100"] /\
  match_occupy_name "run-qwen3-retool-0615-100" = false.
Proof. vm_compute. repeat split. Qed.

(** C10: the first candidate proposed for a request is never among the
    existing names or the names generated so far, the search loop returns
    it at its first attempt, and the whole generation equals the run that
    always takes the first candidate: the random fallback never runs. *)
Theorem generator_never_falls_back (count : nat) (date_str : string)
  (existing_names : list string) (combos : list (string * string)) (rnd : nat -> nat) :
  Permutation combos base_combos ->
  (forall names combo_idx,
     ~ In (candidate combos date_str existing_names names combo_idx) (existing_names ++ names) /\
     search (List.length combos * 100) combos date_str existing_names names combo_idx =
       (Some (candidate combos date_str existing_names names combo_idx), S combo_idx)) /\
  _generate_random_job_names count date_str existing_names combos rnd =
    first_candidates count combos date_str existing_names [] 0.
Proof.
  intros Hp. pose proof (base_combos_nonempty combos Hp) as Hne. split.
  - intros names combo_idx. split; [apply candidate_fresh|].
    apply search_first. destruct combos; [contradiction|]. simpl. lia.
  - apply gen_loop_first. exact Hne.
Qed.

Lemma generator_never_falls_back_witness :
  Permutation base_combos base_combos /\
  _generate_random_job_names 2 "0615" scenario_c_existing base_combos (fun _ => 77) =
    first_candidates 2 base_combos "0615" scenario_c_existing [] 0.
Proof.
  split; [apply Permutation_refl|].
  exact (proj2 (generator_never_falls_back 2 "0615" scenario_c_existing base_combos (fun _ => 77)
                  (Permutation_refl base_combos))).
Defined.

(* ------------------------------------------------------------------ *)
(** ** The manifest builder *)

Lemma fmt_brace_free (role s t : string) :
  has_brace s = false ->
  fmt_go FNormal role (s ++ t) = option_map (append s) (fmt_go FNormal role t).
Proof.
  induction s as [|c r IH]; intros H; cbn [append].
  - destruct (fmt_go FNormal role t); reflexivity.
  - cbn [has_brace] in H. apply orb_false_iff in H. destruct H as [H Hr].
    apply orb_false_iff in H. destruct H as [Hl Hrb].
    cbn [fmt_go]. rewrite Hl, Hrb, IH by exact Hr.
    destruct (fmt_go FNormal role t); reflexivity.
Qed.

Lemma fmt_role_field (role t : string) :
  fmt_go FNormal role ("{role}" ++ t) = option_map (append role) (fmt_go FNormal role t).
Proof. reflexivity. Qed.

Lemma occupy_cmd_head_split :
  exists h1 h2, has_brace h1 = false /\ has_brace h2 = false /\
    occupy_cmd_head = (h1 ++ "{role}" ++ h2)%string.
Proof.
  exists (substring 0 23 occupy_cmd_head),
         (substring 29 (String.length occupy_cmd_head - 29) occupy_cmd_head).
  vm_compute. repeat split.
Qed.

Lemma occupy_cmd_format (instance_type role : string) :
  has_brace instance_type = false ->
  exists out, py_format_role (occupy_cmd instance_type) role = Some out.
Proof.
  intros Hit. destruct occupy_cmd_head_split as (h1 & h2 & H1 & H2 & Hh).
  unfold py_format_role, occupy_cmd. rewrite Hh, !str_app_assoc.
  rewrite fmt_brace_free by exact H1. rewrite fmt_role_field.
  rewrite fmt_brace_free by exact H2. rewrite fmt_brace_free by exact Hit.
  assert (Ht : exists tl, fmt_go FNormal role occupy_cmd_tail = Some tl)
    by (eexists; vm_compute; reflexivity).
  destruct Ht as [tl ->]. eexists. reflexivity.
Qed.

Definition quantities_ok (p : profile) (m : yval) (role : string) : Prop :=
  forall kind, In kind ["requests"; "limits"] ->
    container_quantity role kind "nvidia.com/gpu" m = Some (YInt p.(gpus)) /\
    container_quantity role kind "vpc.amazonaws.com/efa" m = Some (YInt p.(efa)).

Lemma build_manifest_some (job_name namespace : string) (k : Z) (instance_type : string) :
  has_brace instance_type = false ->
  exists master_cmd worker_cmd,
    _build_occupy_yaml job_name namespace k instance_type =
    Some (YMap [("apiVersion", YStr "kubeflow.org/v1"); ("kind", YStr "PyTorchJob");
      ("metadata", YMap [("name", YStr job_name); ("namespace", YStr namespace)]);
      ("spec", YMap [("nprocPerNode", YStr (z_to_dec (_get_instance_profile instance_type).(gpus)));
        ("pytorchReplicaSpecs", YMap (
          let resources :=
            YMap [("requests", YMap [("nvidia.com/gpu", YInt (_get_instance_profile instance_type).(gpus));
                                     ("vpc.amazonaws.com/efa", YInt (_get_instance_profile instance_type).(efa))]);
                  ("limits", YMap [("nvidia.com/gpu", YInt (_get_instance_profile instance_type).(gpus));
                                   ("vpc.amazonaws.com/efa", YInt (_get_instance_profile instance_type).(efa))])] in
          let node_selector := YMap [("node.kubernetes.io/instance-type", YStr instance_type)] in
          let master :=
            ("Master", YMap [("replicas", YInt 1); ("restartPolicy", YStr "OnFailure");
              ("template", YMap [("spec", YMap [("nodeSelector", node_selector);
                ("containers", YList [YMap [("name", YStr "pytorch"); ("image", YStr image);
                  ("imagePullPolicy", YStr "Always");
                  ("ports", YList [
                     YMap [("containerPort", YInt 6379); ("name", YStr "gcs-server")];
                     YMap [("containerPort", YInt 8265); ("name", YStr "dashboard")];
                     YMap [("containerPort", YInt 10001); ("name", YStr "client")];
                     YMap [("containerPort", YInt 8000); ("name", YStr "serve")];
                     YMap [("containerPort", YInt 8080); ("name", YStr "metrics")]]);
                  ("resources", resources); ("env", env);
                  ("command", YList [YStr "bash"; YStr "-c"]); ("args", YList [YStr master_cmd]);
                  ("volumeMounts", volume_mounts)]]);
                ("volumes", volumes)])])]) in
          let worker :=
            ("Worker", YMap [("replicas", YInt k); ("restartPolicy", YStr "OnFailure");
              ("template", YMap [("spec", YMap [("nodeSelector", node_selector);
                ("containers", YList [YMap [("name", YStr "pytorch"); ("image", YStr image);
                  ("imagePullPolicy", YStr "Always");
                  ("resources", resources); ("env", env);
                  ("command", YList [YStr "bash"; YStr "-c"]); ("args", YList [YStr worker_cmd]);
                  ("volumeMounts", volume_mounts)]]);
                ("volumes", volumes)])])]) in
          if Z.ltb 0 k then [master; worker] else [master]))])]).
Proof.
  intros Hb.
  destruct (occupy_cmd_format instance_type "Master" Hb) as [mc Hm].
  destruct (occupy_cmd_format instance_type "Worker" Hb) as [wc Hw].
  exists mc, wc. unfold _build_occupy_yaml. rewrite Hm, Hw. reflexivity.
Qed.

(** C5 (counterexample): an instance type containing a brace is spliced
    into the command template before [.format(role=...)], so the build
    raises ([KeyError]/[ValueError]) instead of yielding a manifest. *)
Lemma build_manifest_brace_type :
  _build_occupy_yaml "run-qwen3-retool-0615-01" "default" 3 "ml.{x}" = None.
Proof. vm_compute. reflexivity. Qed.

(** C5: for every instance type without braces (as every Kubernetes label
    value is), worker_count 0 gives a manifest whose only replica group is
    Master with replicas 1, and worker_count k > 0 adds exactly one Worker
    group with replicas k; both containers request and limit the profile's
    GPU and EFA counts. *)
Theorem build_manifest_shape :
  (forall job_name namespace instance_type,
     has_brace instance_type = false ->
     exists m, _build_occupy_yaml job_name namespace 0 instance_type = Some m /\
       replica_groups m = ["Master"] /\
       ypath ["spec"; "pytorchReplicaSpecs"; "Master"; "replicas"] m = Some (YInt 1) /\
       quantities_ok (_get_instance_profile instance_type) m "Master")
  /\ (forall job_name namespace instance_type k,
     has_brace instance_type = false -> (0 < k)%Z ->
     exists m, _build_occupy_yaml job_name namespace k instance_type = Some m /\
       replica_groups m = ["Master"; "Worker"] /\
       ypath ["spec"; "pytorchReplicaSpecs"; "Master"; "replicas"] m = Some (YInt 1) /\
       ypath ["spec"; "pytorchReplicaSpecs"; "Worker"; "replicas"] m = Some (YInt k) /\
       quantities_ok (_get_instance_profile instance_type) m "Master" /\
       quantities_ok (_get_instance_profile instance_type) m "Worker").
Proof.
  split.
  - intros job_name namespace instance_type Hb.
    destruct (build_manifest_some job_name namespace 0 instance_type Hb) as (mc & wc & ->).
    eexists. split; [reflexivity|]. split; [reflexivity|]. split; [reflexivity|].
    intros kind [<-|[<-|[]]]; split; reflexivity.
  - intros job_name namespace instance_type k Hb Hk.
    destruct (build_manifest_some job_name namespace k instance_type Hb) as (mc & wc & ->).
    assert (Hlt : Z.ltb 0 k = true) by (apply Z.ltb_lt; exact Hk). rewrite Hlt.
    eexists. split; [reflexivity|]. split; [reflexivity|]. split; [reflexivity|].
    split; [reflexivity|].
    split; intros kind [<-|[<-|[]]]; split; reflexivity.
Qed.

Lemma build_manifest_shape_witness :
  has_brace "ml.p5.48xlarge" = false /\ (0 < 3)%Z /\
  exists m, _build_occupy_yaml "run-qwen3-retool-0615-01" "default" 3 "ml.p5.48xlarge" = Some m /\
    replica_groups m = ["Master"; "Worker"].
Proof.
  assert (Hb : has_brace "ml.p5.48xlarge" = false) by reflexivity.
  assert (Hk : (0 < 3)%Z) by lia.
  split; [exact Hb|]. split; [exact Hk|].
  destruct (proj2 build_manifest_shape "run-qwen3-retool-0615-01" "default"
              "ml.p5.48xlarge" 3%Z Hb Hk) as (m & Hm & Hg & _).
  exists m. split; [exact Hm|exact Hg].
Defined.

(* ------------------------------------------------------------------ *)
(** ** The inventory readers *)

(** Peel one [x <- c ;; k] step off a hypothesis [... = Ok _]. *)
Ltac res_step H :=
  match type of H with
  | context [match ?c with Ok _ => _ | Raise _ => _ end] =>
      let E := fresh "E" in destruct c eqn:E; [|discriminate H]
  end.

Lemma res_fold_inv {A B : Type} (P : B -> Prop) (f : B -> A -> res B) (l : list A) (acc r : B) :
  (forall acc x acc', In x l -> P acc -> f acc x = Ok acc' -> P acc') ->
  P acc -> res_fold f l acc = Ok r -> P r.
Proof.
  revert acc. induction l as [|x rest IH]; intros acc Hstep Hacc Hf; simpl in Hf.
  - inversion Hf; subst. exact Hacc.
  - destruct (f acc x) as [acc'|e] eqn:E; [|discriminate].
    apply (IH acc'); [|exact (Hstep acc x acc' (or_introl eq_refl) Hacc E)|exact Hf].
    intros a y a' Hy. apply Hstep. right. exact Hy.
Qed.

Lemma catch_key_error_ok {A : Type} (d x : A) (r : res A) :
  catch_key_error d r = Ok x -> r = Ok x \/ (r = Raise KeyError /\ x = d).
Proof.
  destruct r as [a|[]]; simpl; intros H; inversion H; subst; auto.
Qed.

Lemma gpu_node_step_nonzero (nodes nodes' : list gpu_node) (item : json) :
  Forall (fun n => n.(gn_gpu_count) <> 0%Z) nodes ->
  gpu_node_step nodes item = Ok nodes' ->
  Forall (fun n => n.(gn_gpu_count) <> 0%Z) nodes'.
Proof.
  intros Hall H. unfold gpu_node_step in H.
  do 6 res_step H.
  match type of H with
  | context [Z.eqb ?g 0%Z] => destruct (Z.eqb_spec g 0%Z) as [Hz|Hz]
  end.
  - inversion H; subst. exact Hall.
  - repeat res_step H. inversion H; subst.
    apply Forall_app. split; [exact Hall|]. constructor; [exact Hz|constructor].
Qed.

Lemma busy_step_occupies (its : list json) (busy busy' : list json) (item : json) :
  In item its ->
  (forall b, In b busy -> exists it, In it its /\ pod_occupies it b) ->
  busy_step busy item = Ok busy' ->
  (forall b, In b busy' -> exists it, In it its /\ pod_occupies it b).
Proof.
  intros Hin Hb H. unfold busy_step in H.
  destruct (py_get item "status" (JObj [])) as [st|] eqn:E1; [|discriminate].
  destruct (py_get st "phase" (JStr "")) as [phase|] eqn:E2; [|discriminate].
  destruct (active_phase phase) eqn:E3; [|inversion H; subst; exact Hb].
  destruct (py_get item "spec" (JObj [])) as [spec|] eqn:E4; [|discriminate].
  destruct (py_get spec "nodeName" (JStr "")) as [nn|] eqn:E5; [|discriminate].
  destruct (py_truthy nn) eqn:E6; [|inversion H; subst; exact Hb].
  assert (Hadd : busy' = busy ++ [nn]) by (destruct nn; inversion H; reflexivity).
  subst busy'. intros b Hb'. apply in_app_iff in Hb'. destruct Hb' as [Hb'|[<-|[]]].
  - exact (Hb b Hb').
  - exists item. split; [exact Hin|]. exists st, phase, spec. repeat split; assumption.
Qed.

(** C7 (code bug): the readers fail open on a non-zero exit code (also a
    timeout) and on undecodable output; on success zero-GPU nodes are
    dropped and only active pods with a node contribute to the busy set;
    but a decoded document of another shape (here a top-level list) makes
    both raise [AttributeError], since only [JSONDecodeError] and
    [KeyError] are caught. *)
Theorem inventory_reads_fail_open :
  (forall out, out.(rc) <> 0%Z -> _get_gpu_nodes out = Ok [] /\ _get_busy_nodes out = Ok [])
  /\ (forall out, out.(stdout_json) = None -> _get_gpu_nodes out = Ok [] /\ _get_busy_nodes out = Ok [])
  /\ (forall out ns, _get_gpu_nodes out = Ok ns -> Forall (fun n => n.(gn_gpu_count) <> 0%Z) ns)
  /\ (forall out bs b, _get_busy_nodes out = Ok bs -> In b bs ->
        exists data items its item,
          out.(stdout_json) = Some data /\ py_get data "items" (JArr []) = Ok items /\
          py_iter items = Ok its /\ In item its /\ pod_occupies item b)
  /\ _get_gpu_nodes (mkKubectl 0 (Some (JArr []))) = Raise AttributeError
  /\ _get_busy_nodes (mkKubectl 0 (Some (JArr []))) = Raise AttributeError.
Proof.
  split; [|split; [|split; [|split; [|split]]]].
  - intros out Hrc. unfold _get_gpu_nodes, _get_busy_nodes.
    destruct (Z.eqb_spec out.(rc) 0%Z); [contradiction|]. split; reflexivity.
  - intros out Hs. unfold _get_gpu_nodes, _get_busy_nodes. rewrite Hs.
    destruct (negb _); split; reflexivity.
  - intros out ns H. unfold _get_gpu_nodes in H.
    destruct (negb _); [inversion H; constructor|].
    destruct out.(stdout_json) as [data|]; [|inversion H; constructor].
    apply catch_key_error_ok in H. destruct H as [H|[_ ->]]; [|constructor].
    res_step H. res_step H.
    refine (res_fold_inv _ gpu_node_step _ [] ns _ (Forall_nil _) H).
    intros acc x acc' _ Hacc Hst. exact (gpu_node_step_nonzero acc acc' x Hacc Hst).
  - intros out bs b H Hin. unfold _get_busy_nodes in H.
    destruct (negb _); [inversion H; subst; destruct Hin|].
    destruct out.(stdout_json) as [data|] eqn:Hd; [|inversion H; subst; destruct Hin].
    apply catch_key_error_ok in H. destruct H as [H|[_ ->]]; [|destruct Hin].
    destruct (py_get data "items" (JArr [])) as [items|] eqn:E1; [|discriminate].
    destruct (py_iter items) as [its|] eqn:E2; [|discriminate].
    pose proof (res_fold_inv (fun acc => forall b, In b acc -> exists it, In it its /\ pod_occupies it b)
                  busy_step its [] bs) as Hinv.
    destruct (Hinv (fun acc x acc' Hx Hacc Hst => busy_step_occupies its acc acc' x Hx Hacc Hst)
                   (fun b Hb => match Hb with end) H b Hin) as (item & Hit & Hocc).
    exists data, items, its, item. repeat split; assumption.
  - reflexivity.
  - reflexivity.
Qed.

Lemma inventory_reads_fail_open_witness :
  1%Z <> 0%Z /\ _get_gpu_nodes (mkKubectl 1 None) = Ok [] /\ _get_busy_nodes (mkKubectl 1 None) = Ok [].
Proof.
  assert (H : 1%Z <> 0%Z) by discriminate.
  split; [exact H|].
  exact (proj1 inventory_reads_fail_open (mkKubectl 1 None) H).
Defined.

(* ------------------------------------------------------------------ *)
(** ** Automatic occupation and the patrol loop *)

Lemma filter_all_false {A} (f : A -> bool) (l : list A) :
  (forall x, f x = false) -> filter f l = [].
Proof.
  intros Hf. induction l as [|x l IH]; [reflexivity|].
  cbn [filter]. rewrite Hf. exact IH.
Qed.

Lemma list_sum_cons_eq (x : nat) (l : list nat) : list_sum (x :: l) = x + list_sum l.
Proof. reflexivity. Qed.

Lemma add_occupied_total st o :
  add_occupied st o = mkPatrol st.(round_num) (st.(total_occupied) + o).
Proof.
  unfold add_occupied. destruct (Nat.ltb_spec 0 o) as [_|Ho].
  - reflexivity.
  - replace o with 0 by lia. rewrite Nat.add_0_r. destruct st; reflexivity.
Qed.

(** C8 (code_bug): [_auto_occupy] returns the nodes of EVERY planned batch
    as soon as one submission succeeds ([total_nodes if success_count > 0
    else 0]), and the patrol loop adds that value to its total.  Only when
    no submission succeeds is the increment zero.  With five free
    [ml.p5.48xlarge] nodes, planned as batches of 4 and 1, where only the
    first job's submission succeeds, the cycle adds 5 while the succeeded
    batches hold 4 nodes. *)
Theorem patrol_counter_overcount :
  (forall all_nodes busy_nodes date_str existing_names combos rnd apply_ok,
      (forall jn, apply_ok jn = false) ->
      _auto_occupy all_nodes busy_nodes date_str existing_names combos rnd apply_ok = 0)
  /\ (let free := repeat (mkNode "ip-10-0-0-3" true 8 "Ready" "ml.p5.48xlarge" "H100" 32 "8xH100 (p5)") 5 in
      let rnd := fun _ : nat => 50 in
      let apply_ok := fun jn => String.eqb jn "run-qwen3-retool-0615-01" in
      let job_names := _generate_random_job_names 2 "0615" [] base_combos rnd in
      batch_plan free = [(4, "ml.p5.48xlarge"); (1, "ml.p5.48xlarge")]
      /\ job_names = ["run-qwen3-retool-0615-01"; "run-qwen3-search-0615-01"]
      /\ _auto_occupy free [] "0615" [] base_combos rnd apply_ok = 5
      /\ succeeded_nodes (batch_plan free) job_names apply_ok = 4
      /\ patrol_cycle (mkPatrol 0 0) (CycleOccupied (_auto_occupy free [] "0615" [] base_combos rnd apply_ok))
                      SleepDone = Running (mkPatrol 1 5)).
Proof.
  split.
  - intros all_nodes busy_nodes date_str existing_names combos rnd apply_ok Hf.
    unfold _auto_occupy.
    destruct all_nodes as [|n0 rest]; [reflexivity|].
    destruct (free_nodes (n0 :: rest) busy_nodes) as [|f0 frest]; [reflexivity|].
    rewrite (filter_all_false apply_ok _ Hf). reflexivity.
  - vm_compute. repeat split.
Qed.

Lemma patrol_counter_overcount_witness :
  _auto_occupy [] [] "0615" [] base_combos (fun _ => 50) (fun _ => false) = 0.
Proof.
  exact (proj1 patrol_counter_overcount [] [] "0615" [] base_combos (fun _ => 50) (fun _ => false)
           (fun _ => eq_refl)).
Defined.

(** C9: a cycle whose pipeline raises an [Exception] is caught, goes on to
    the sleep and leaves the total unchanged; the loop stops only on an
    operator interrupt (during the cycle or during the sleep), reporting
    the number of rounds and the total; over any run without an interrupt
    the loop keeps running, counting every round and adding exactly the
    values the completed cycles added.  (Python's [except Exception] lets
    [KeyboardInterrupt] through; the phases raise no other non-[Exception]
    base exception.) *)
Theorem patrol_resilience :
  (forall st,
      patrol_cycle st (CycleRaised PyException) SleepDone
      = Running (mkPatrol (S st.(round_num)) st.(total_occupied)))
  /\ (forall st ev sl n t,
      patrol_cycle st ev sl = Stopped n t ->
      operator_interrupt ev sl /\ n = S st.(round_num) /\ t = st.(total_occupied) + cycle_gain ev)
  /\ (forall st ev, operator_interrupt ev SleepInterrupted /\
      exists n t, patrol_cycle st ev SleepInterrupted = Stopped n t)
  /\ (forall st evs,
      Forall (fun e => ~ operator_interrupt (fst e) (snd e)) evs ->
      patrol_run st evs
      = Running (mkPatrol (st.(round_num) + List.length evs)
                          (st.(total_occupied) + list_sum (map (fun e => cycle_gain (fst e)) evs)))).
Proof.
  split; [|split; [|split]].
  - intros st. reflexivity.
  - intros st ev sl n t H. unfold operator_interrupt.
    destruct ev as [|o|[]|o]; destruct sl; cbn in H;
      try rewrite add_occupied_total in H; cbn in H; inversion H; subst; cbn;
      repeat split; auto; lia.
  - intros st ev. split; [right; reflexivity|].
    destruct ev as [|o|[]|o]; do 2 eexists; reflexivity.
  - intros st evs Hall. revert st. induction Hall as [|[ev sl] evs Hn _ IH]; intros st.
    + cbn. rewrite !Nat.add_0_r. destruct st; reflexivity.
    + cbn [fst snd] in Hn. unfold operator_interrupt in Hn. cbn [patrol_run].
      destruct sl; [|exfalso; apply Hn; right; reflexivity].
      destruct ev as [|o|[]|o]; cbn [patrol_cycle after_body];
        try rewrite add_occupied_total; try (exfalso; apply Hn; left; reflexivity);
        rewrite IH; cbn [round_num total_occupied List.length map fst];
        rewrite ?list_sum_cons_eq; cbn [cycle_gain]; f_equal; f_equal; lia.
Qed.

Lemma patrol_resilience_witness :
  patrol_run (mkPatrol 0 0) [(CycleRaised PyException, SleepDone); (CycleOccupied 3, SleepDone)]
  = Running (mkPatrol 2 3).
Proof.
  refine (eq_trans (proj2 (proj2 (proj2 patrol_resilience)) (mkPatrol 0 0) _ _) eq_refl).
  repeat constructor; unfold operator_interrupt; cbn; intros [H|H]; discriminate.
Defined.
(* ------------------------------------------------------------------ *)
(** ** Plan totals and [_auto_occupy] *)

Lemma list_sum_map_add {A} (f g : A -> nat) (l : list A) :
  list_sum (map (fun x => f x + g x) l) = list_sum (map f l) + list_sum (map g l).
Proof. induction l as [|x r IH]; simpl; [reflexivity|]. rewrite IH. lia. Qed.

Lemma list_sum_map_zero {A} (l : list A) : list_sum (map (fun _ => 0) l) = 0.
Proof. induction l as [|x r IH]; simpl; [reflexivity|]. exact IH. Qed.

Lemma sum_indicator (t : string) (types : list string) :
  NoDup types -> In t types ->
  list_sum (map (fun t' => if String.eqb t' t then 1 else 0) types) = 1.
Proof.
  induction types as [|t' r IH]; simpl; intros Hnd Hin; [destruct Hin|].
  inversion Hnd as [|? ? Hni Hr]; subst.
  destruct (String.eqb_spec t' t) as [->|Hne].
  - assert (Hz : list_sum (map (fun t' => if String.eqb t' t then 1 else 0) r) = 0).
    { clear IH Hr Hin Hnd. induction r as [|u r' IH']; simpl; [reflexivity|].
      destruct (String.eqb_spec u t) as [->|].
      + exfalso. apply Hni. left. reflexivity.
      + apply IH'. intros H. apply Hni. right. exact H. }
    rewrite Hz. reflexivity.
  - destruct Hin as [->|Hin]; [congruence|]. apply IH; assumption.
Qed.

Lemma sum_count_types (types : list string) (free : list node) :
  NoDup types -> (forall n, In n free -> In n.(instance_type) types) ->
  list_sum (map (fun t => count_type t free) types) = List.length free.
Proof.
  intros Hnd. induction free as [|n r IH]; intros Hcov.
  - apply list_sum_map_zero.
  - assert (Heq : map (fun t => count_type t (n :: r)) types
                  = map (fun t => (if String.eqb t n.(instance_type) then 1 else 0) + count_type t r) types).
    { apply map_ext. intros t. apply count_type_cons. }
    rewrite Heq, list_sum_map_add, sum_indicator, IH.
    + reflexivity.
    + intros m Hm. apply Hcov. right. exact Hm.
    + exact Hnd.
    + apply Hcov. left. reflexivity.
Qed.

Lemma batch_plan_types (free : list node) :
  NoDup (sort_str (map fst (free_by_type free))) /\
  (forall t, In t (sort_str (map fst (free_by_type free))) <-> In t (map instance_type free)).
Proof.
  pose proof (sort_str_perm (map fst (free_by_type free))) as Hp.
  split.
  - apply (Permutation_NoDup (Permutation_sym Hp)). apply free_by_type_nodup.
  - intros t. rewrite <- free_by_type_keys. split; apply Permutation_in;
      [exact Hp|apply Permutation_sym; exact Hp].
Qed.

Lemma reference_plan_total (types : list string) (free : list node) :
  list_sum (map fst (reference_plan types free)) = list_sum (map (fun t => count_type t free) types).
Proof.
  unfold reference_plan. induction types as [|t r IH]; simpl; [reflexivity|].
  rewrite map_app, list_sum_app, IH, map_map. simpl.
  rewrite map_id, (proj1 (greedy_spec _)). reflexivity.
Qed.

Lemma batch_plan_total_nodes (free : list node) :
  list_sum (map fst (batch_plan free)) = List.length free.
Proof.
  rewrite batch_plan_is_reference, reference_plan_total.
  destruct (batch_plan_types free) as [Hnd Hm].
  apply sum_count_types; [exact Hnd|].
  intros n Hn. apply Hm. apply in_map. exact Hn.
Qed.

Lemma length_filter_pos {A} (f : A -> bool) (l : list A) :
  Nat.ltb 0 (List.length (filter f l)) = existsb f l.
Proof.
  induction l as [|x r IH]; simpl; [reflexivity|].
  destruct (f x); simpl; [reflexivity|exact IH].
Qed.

(** [_auto_occupy] reports all free nodes as soon as one generated job's
    submission succeeds, and 0 otherwise (also with no nodes or no free
    node). *)
Theorem auto_occupy_result (all_nodes : list node) (busy_nodes : list string) (date_str : string)
  (existing_names : list string) (combos : list (string * string)) (rnd : nat -> nat)
  (apply_ok : string -> bool) :
  let free := free_nodes all_nodes busy_nodes in
  let job_names := _generate_random_job_names (List.length (batch_plan free)) date_str
                     existing_names combos rnd in
  _auto_occupy all_nodes busy_nodes date_str existing_names combos rnd apply_ok
  = if existsb apply_ok job_names then List.length free else 0.
Proof.
  cbv zeta. unfold _auto_occupy.
  destruct all_nodes as [|n0 rest]; [reflexivity|].
  destruct (free_nodes (n0 :: rest) busy_nodes) as [|f0 frest] eqn:Hf; [reflexivity|].
  rewrite <- Hf. cbv zeta. rewrite length_filter_pos, batch_plan_total_nodes. reflexivity.
Qed.







(* ------------------------------------------------------------------ *)
(** ** Manifest files *)

Lemma build_manifest_reads (job_name namespace : string) (k : Z) (instance_type : string) :
  has_brace instance_type = false ->
  exists m, _build_occupy_yaml job_name namespace k instance_type = Some m /\
    manifest_nodes m = (1 + (if Z.ltb 0 k then k else 0))%Z /\
    manifest_selector "Master" m = Some (YStr instance_type) /\
    ypath ["metadata"; "name"] m = Some (YStr job_name).
Proof.
  intros Hb. destruct (build_manifest_some job_name namespace k instance_type Hb) as (mc & wc & ->).
  eexists. split; [reflexivity|].
  destruct (Z.ltb 0 k); repeat split; reflexivity.
Qed.

Lemma batch_plan_in (free : list node) (b : nat * string) :
  In b (batch_plan free) -> 1 <= fst b <= DEFAULT_BATCH_SIZE /\ In (snd b) (map instance_type free).
Proof.
  rewrite batch_plan_is_reference. destruct (batch_plan_types free) as [_ Hm].
  unfold reference_plan. intros Hb. apply in_flat_map in Hb. destruct Hb as (t & Ht & Hb).
  apply in_map_iff in Hb. destruct Hb as (s & <- & Hs). simpl. split.
  - pose proof (proj2 (greedy_spec (count_type t free))) as Hf.
    rewrite Forall_forall in Hf. exact (Hf s Hs).
  - apply Hm. exact Ht.
Qed.

Lemma gen_yamls_go_spec (yaml_dir namespace : string) (job_names : list string) :
  forall plan i,
  Forall (fun b => 1 <= fst b /\ has_brace (snd b) = false) plan ->
  i + List.length plan <= List.length job_names ->
  exists files,
    gen_yamls_go yaml_dir namespace job_names i plan = Some files /\
    map fst files = map (fun j => os_path_join yaml_dir (j ++ ".yaml"))
                        (firstn (List.length plan) (skipn i job_names)) /\
    map (fun f => manifest_nodes (snd f)) files = map (fun b => Z.of_nat (fst b)) plan /\
    map (fun f => manifest_selector "Master" (snd f)) files = map (fun b => Some (YStr (snd b))) plan /\
    map (fun f => ypath ["metadata"; "name"] (snd f)) files
    = map (fun j => Some (YStr j)) (firstn (List.length plan) (skipn i job_names)).
Proof.
  induction plan as [|[b t] r IH]; intros i Hall Hlen.
  - exists []. repeat split.
  - inversion Hall as [|? ? [Hb Ht] Hr]; subst. cbn [fst snd] in Hb, Ht. simpl in Hlen.
    destruct (nth_error job_names i) as [j|] eqn:Hj.
    2:{ apply nth_error_None in Hj. lia. }
    destruct (build_manifest_reads j namespace (Z.of_nat b - 1) t Ht) as (m & Hm & Hn & Hs & Hnm).
    destruct (IH (S i) Hr ltac:(lia)) as (files & Hgo & H1 & H2 & H3 & H4).
    exists ((os_path_join yaml_dir (j ++ ".yaml"), m) :: files).
    assert (Hskip : skipn i job_names = j :: skipn (S i) job_names).
    { clear -Hj. revert i Hj. induction job_names as [|x xs IHj]; intros [|i] Hj;
        simpl in *; try discriminate.
      - inversion Hj; subst. reflexivity.
      - apply IHj. exact Hj. }
    cbn [gen_yamls_go]. rewrite Hj, Hm, Hgo, Hskip. cbn [option_map map fst snd List.length firstn].
    rewrite H1, H2, H3, H4, Hn, Hs, Hnm.
    repeat split.
    f_equal. destruct (Z.ltb_spec 0 (Z.of_nat b - 1)); lia.
Qed.

Lemma zsum_of_nat (l : list (nat * string)) :
  zsum (map (fun b => Z.of_nat (fst b)) l) = Z.of_nat (list_sum (map fst l)).
Proof. induction l as [|x r IH]; unfold zsum in *; simpl; [reflexivity|]. rewrite IH. lia. Qed.

(** For a batch plan of free nodes whose instance types have no braces, and
    at least one job name per batch, one file per batch is written:
    [<dir>/<job name>.yaml] with the batch's job name in its metadata, a
    node selector for the batch's type, and replicas (1 Master, plus
    size-1 Workers when the batch has more than one node) totalling the
    batch size; over all files, the replicas total the free nodes. *)
Theorem generate_occupy_yamls_plan (yaml_dir namespace : string) (free : list node)
  (job_names : list string) :
  Forall (fun n => has_brace n.(instance_type) = false) free ->
  List.length (batch_plan free) <= List.length job_names ->
  exists files,
    _generate_occupy_yamls yaml_dir (batch_plan free) namespace job_names = Some files /\
    map fst files = map (fun j => os_path_join yaml_dir (j ++ ".yaml"))
                        (firstn (List.length (batch_plan free)) job_names) /\
    map (fun f => ypath ["metadata"; "name"] (snd f)) files
    = map (fun j => Some (YStr j)) (firstn (List.length (batch_plan free)) job_names) /\
    map (fun f => manifest_selector "Master" (snd f)) files
    = map (fun b => Some (YStr (snd b))) (batch_plan free) /\
    map (fun f => manifest_nodes (snd f)) files = map (fun b => Z.of_nat (fst b)) (batch_plan free) /\
    zsum (map (fun f => manifest_nodes (snd f)) files) = Z.of_nat (List.length free).
Proof.
  intros Hfree Hlen.
  assert (Hall : Forall (fun b => 1 <= fst b /\ has_brace (snd b) = false) (batch_plan free)).
  { apply Forall_forall. intros b Hb. destruct (batch_plan_in free b Hb) as [Hs Ht].
    split; [lia|]. apply in_map_iff in Ht. destruct Ht as (n & <- & Hn).
    rewrite Forall_forall in Hfree. exact (Hfree n Hn). }
  destruct (gen_yamls_go_spec yaml_dir namespace job_names (batch_plan free) 0 Hall ltac:(simpl; lia))
    as (files & Hgo & H1 & H2 & H3 & H4).
  exists files. simpl skipn in *. unfold _generate_occupy_yamls.
  repeat split; try assumption.
  rewrite H2, zsum_of_nat, batch_plan_total_nodes. reflexivity.
Qed.

Lemma has_slash_app_slash (a b : string) : has_slash (a ++ String "/" b) = true.
Proof. induction a as [|c r IH]; cbn [append has_slash]; [reflexivity|]. rewrite IH, orb_true_r. reflexivity. Qed.

Lemma basename_after_slash (a b : string) :
  has_slash b = false -> basename (a ++ "/" ++ b) = b.
Proof.
  intros Hb. change ("/" ++ b)%string with (String "/" b). induction a as [|c r IH].
  - cbn [append basename]. rewrite Hb. reflexivity.
  - cbn [append basename]. rewrite has_slash_app_slash. exact IH.
Qed.

Lemma basename_no_slash (b : string) : has_slash b = false -> basename b = b.
Proof.
  destruct b as [|c r]; [reflexivity|]. cbn [has_slash basename]. intros H.
  apply orb_false_iff in H. destruct H as [Hc Hr]. rewrite Hr, Hc. reflexivity.
Qed.

Lemma ends_with_slash_split (a : string) :
  ends_with_slash a = true -> exists a', a = (a' ++ "/")%string.
Proof.
  induction a as [|c r IH]; [discriminate|].
  destruct r as [|c' r'].
  - cbn. intros H. apply Ascii.eqb_eq in H. subst. exists "". reflexivity.
  - intros H. destruct (IH H) as [a' Ha']. exists (String c a'). rewrite Ha'. reflexivity.
Qed.

Lemma os_path_join_relative (a b : string) :
  (forall r, b <> String "/" r) ->
  os_path_join a b = if String.eqb a "" || ends_with_slash a then (a ++ b)%string else (a ++ "/" ++ b)%string.
Proof.
  intros Hb. unfold os_path_join. destruct b as [|c r]; [reflexivity|].
  destruct c as [[] [] [] [] [] [] [] []]; try reflexivity.
  exfalso. exact (Hb r eq_refl).
Qed.

Lemma replace_yaml_suffix (j : string) (fuel : nat) :
  has_dot j = false -> String.length (j ++ ".yaml") <= fuel ->
  replace_go fuel ".yaml" "" (j ++ ".yaml") = j.
Proof.
  revert fuel. induction j as [|c r IH]; intros fuel Hd Hf.
  - destruct fuel as [|f]; [simpl in Hf; lia|]. cbn. destruct f; reflexivity.
  - destruct fuel as [|f]; [simpl in Hf; lia|].
    cbn [has_dot] in Hd. apply orb_false_iff in Hd. destruct Hd as [Hc Hr].
    cbn [append replace_go]. cbn [strip_prefix]. rewrite Ascii.eqb_sym, Hc. rewrite IH; [reflexivity|exact Hr|].
    simpl in Hf. lia.
Qed.

(** The job name printed for each file in the submission loop
    ([os.path.basename(yaml_file).replace(".yaml", "")]) is the job name
    the file was written for, for every directory and every name without
    [/] or [.] (as the generated names are). *)
Theorem submitted_job_name_roundtrip (yaml_dir job_name : string) :
  has_slash job_name = false -> has_dot job_name = false ->
  submitted_job_name (os_path_join yaml_dir (job_name ++ ".yaml")) = job_name.
Proof.
  intros Hs Hd.
  assert (Hns : has_slash (job_name ++ ".yaml") = false).
  { clear Hd. induction job_name as [|c r IH]; [reflexivity|].
    cbn [has_slash append] in *. apply orb_false_iff in Hs. destruct Hs as [Hc Hr].
    rewrite Hc, IH by exact Hr. reflexivity. }
  assert (Hrel : forall r, (job_name ++ ".yaml")%string <> String "/" r).
  { intros r Heq. rewrite Heq in Hns. discriminate. }
  unfold submitted_job_name, py_replace. rewrite os_path_join_relative by exact Hrel.
  destruct (String.eqb yaml_dir "" || ends_with_slash yaml_dir) eqn:E.
  - apply orb_true_iff in E. destruct E as [E|E].
    + apply String.eqb_eq in E. subst. cbn [append]. rewrite basename_no_slash by exact Hns.
      apply replace_yaml_suffix; [exact Hd|lia].
    + destruct (ends_with_slash_split _ E) as [a' ->]. rewrite str_app_assoc.
      rewrite basename_after_slash by exact Hns. apply replace_yaml_suffix; [exact Hd|lia].
  - rewrite basename_after_slash by exact Hns. apply replace_yaml_suffix; [exact Hd|lia].
Qed.

(* ------------------------------------------------------------------ *)
(** ** Reading submitted jobs back in the delete view *)


(* ------------------------------------------------------------------ *)
(** ** [OCCUPY_NAME_PATTERN] on generated names *)

Lemma take_alnum_word (w r : string) :
  forallb is_lower_alnum (list_ascii_of_string w) = true ->
  take_alnum (w ++ String "-" r) = (w, String "-" r).
Proof.
  induction w as [|c w' IH]; intros H; [reflexivity|].
  cbn [list_ascii_of_string forallb] in H. apply andb_true_iff in H. destruct H as [Hc Hw].
  cbn [append take_alnum]. rewrite Hc, IH by exact Hw. reflexivity.
Qed.

Lemma take_digits_word (d r : string) :
  all_digits d = true -> take_digits (d ++ String "-" r) = (d, String "-" r).
Proof.
  induction d as [|c d' IH]; intros H; [reflexivity|].
  cbn [all_digits] in H. apply andb_true_iff in H. destruct H as [Hc Hd].
  cbn [append take_digits]. rewrite Hc, IH by exact Hd. reflexivity.
Qed.

Lemma strip_dash (r : string) : strip_prefix "-" (String "-" r) = Some r.
Proof. reflexivity. Qed.

Lemma format_02d_two_digits (n : nat) :
  Nat.eqb (String.length (format_02d n)) 2 = Nat.ltb n 100.
Proof.
  destruct (Nat.ltb_spec n 100) as [Hn|Hn].
  - assert (Htab : forallb (fun k => Nat.eqb (String.length (format_02d k)) 2) (seq 0 100) = true)
      by (vm_compute; reflexivity).
    rewrite forallb_forall in Htab. apply Htab. apply in_seq. lia.
  - destruct (Nat.eqb_spec (String.length (format_02d n)) 2) as [Hl|]; [exfalso|reflexivity].
    pose proof (parse_format_02d n) as Hp. pose proof (all_digits_format_02d n) as Ha.
    destruct (format_02d n) as [|a [|b [|c r]]]; cbn [String.length] in Hl; try discriminate.
    cbn [all_digits] in Ha. rewrite andb_true_r in Ha. apply andb_true_iff in Ha.
    destruct Ha as [Ha Hb]. unfold is_digit in Ha, Hb.
    apply andb_true_iff in Ha, Hb. destruct Ha as [_ Ha], Hb as [_ Hb].
    apply Nat.leb_le in Ha, Hb. unfold parse_dec, digit_val in Hp. cbn in Hp. lia.
Qed.

(** A name of the generator's form [run-<model>-<task>-<date>-<NN>], with a
    non-empty lowercase-alphanumeric model and task and a four-digit date,
    is recognised by [OCCUPY_NAME_PATTERN] (and so offered as an occupy job
    by the delete view) exactly when its index is below 100. *)
Theorem occupy_pattern_index (model task date_str : string) (n : nat) :
  model <> "" -> task <> "" ->
  forallb is_lower_alnum (list_ascii_of_string model) = true ->
  forallb is_lower_alnum (list_ascii_of_string task) = true ->
  String.length date_str = 4 -> all_digits date_str = true ->
  match_occupy_name (name_prefix model task date_str ++ "-" ++ format_02d n) = Nat.ltb n 100.
Proof.
  intros Hm Ht Hma Hta Hdl Hda.
  unfold name_prefix, match_occupy_name. rewrite !str_app_assoc, strip_prefix_app.
  cbn [append].
  rewrite take_alnum_word by exact Hma. rewrite strip_dash.
  rewrite take_alnum_word by exact Hta. rewrite strip_dash.
  rewrite take_digits_word by exact Hda. rewrite strip_dash.
  rewrite take_digits_all by apply all_digits_format_02d.
  rewrite Hdl, format_02d_two_digits.
  apply String.eqb_neq in Hm, Ht. rewrite Hm, Ht. cbn.
  rewrite andb_true_r. reflexivity.
Qed.

(* ------------------------------------------------------------------ *)
(** ** [_get_existing_job_names] *)

Definition no_ws (l : list ascii) : bool := forallb (fun c => negb (py_isspace c)) l.


Lemma string_of_list_ascii_inj (a b : list ascii) :
  string_of_list_ascii a = string_of_list_ascii b -> a = b.
Proof.
  intros H. rewrite <- (list_ascii_of_string_of_list_ascii a), <- (list_ascii_of_string_of_list_ascii b).
  now rewrite H.
Qed.


Lemma split_ws_go_members (l cur : list ascii) (w : string) :
  no_ws cur = true -> In w (split_ws_go l cur) ->
  w <> "" /\ no_ws (list_ascii_of_string w) = true.
Proof.
  assert (Hrev : forall x : list ascii, no_ws x = true -> no_ws (rev x) = true).
  { intros x Hx. unfold no_ws in *. rewrite forallb_forall in *. intros y Hy.
    apply Hx, in_rev, Hy. }
  assert (Hone : forall x : list ascii, x <> [] -> no_ws x = true ->
            string_of_list_ascii (rev x) <> "" /\
            no_ws (list_ascii_of_string (string_of_list_ascii (rev x))) = true).
  { intros x Hne Hx. rewrite list_ascii_of_string_of_list_ascii. split; [|now apply Hrev].
    intros He. apply Hne. destruct (rev x) eqn:E; [|discriminate].
    now apply (f_equal (@rev ascii)) in E; rewrite rev_involutive in E. }
  revert cur. induction l as [|c r IH]; intros cur Hcur Hin; cbn [split_ws_go] in Hin.
  - destruct cur as [|x xs]; [destruct Hin|]. destruct Hin as [<-|[]].
    apply Hone; [discriminate|exact Hcur].
  - destruct (py_isspace c) eqn:Hc.
    + destruct cur as [|x xs]; [exact (IH [] eq_refl Hin)|].
      destruct Hin as [<-|Hin]; [apply Hone; [discriminate|exact Hcur]|].
      exact (IH [] eq_refl Hin).
    + apply (IH (c :: cur)); [|exact Hin].
      change (negb (py_isspace c) && no_ws cur = true). now rewrite Hc, Hcur.
Qed.






(** Every name [_get_existing_job_names] returns is non-empty and free of
    whitespace, whatever kubectl printed. *)
Theorem existing_job_names_members (rc : Z) (stdout w : string) :
  In w (_get_existing_job_names rc stdout) ->
  w <> "" /\ forallb (fun c => negb (py_isspace c)) (list_ascii_of_string w) = true.
Proof.
  unfold _get_existing_job_names. intros Hin.
  destruct (negb (Z.eqb rc 0) || String.eqb (py_strip stdout) ""); [destruct Hin|].
  exact (split_ws_go_members _ [] w eq_refl Hin).
Qed.


(* ------------------------------------------------------------------ *)
(** ** [_infer_job_name] *)

Lemma split_sep_nonempty (sep : ascii) (s : string) : split_sep sep s <> [].
Proof.
  induction s as [|c r IH]; cbn [split_sep]; [discriminate|].
  destruct (Ascii.eqb c sep); [discriminate|]. destruct (split_sep sep r); discriminate.
Qed.

Lemma split_sep_app (sep : ascii) (a b : string) :
  split_sep sep (a ++ String sep b) = split_sep sep a ++ split_sep sep b.
Proof.
  induction a as [|c a IH]; cbn [append split_sep].
  - rewrite Ascii.eqb_refl. reflexivity.
  - rewrite IH. destruct (Ascii.eqb c sep); [reflexivity|].
    destruct (split_sep sep a) eqn:E; [contradiction (split_sep_nonempty sep a E)|]. reflexivity.
Qed.

Lemma split_sep_word (sep : ascii) (w : string) :
  ~ In sep (list_ascii_of_string w) -> split_sep sep w = [w].
Proof.
  induction w as [|c r IH]; intros H; [reflexivity|]. cbn [split_sep].
  cbn [list_ascii_of_string In] in H.
  destruct (Ascii.eqb_spec c sep) as [->|_]; [exfalso; apply H; left; reflexivity|].
  rewrite IH by (intros Hin; apply H; right; exact Hin). reflexivity.
Qed.

Lemma join_sep_cons_string (sep : string) (c : ascii) (w : string) (ws : list string) :
  join_sep sep (String c w :: ws) = String c (join_sep sep (w :: ws)).
Proof. destruct ws; reflexivity. Qed.

Lemma join_sep_cons2 (sep a b : string) (l : list string) :
  join_sep sep (a :: b :: l) = (a ++ sep ++ join_sep sep (b :: l))%string.
Proof. reflexivity. Qed.

Lemma join_split_sep (sep : ascii) (s : string) :
  join_sep (String sep EmptyString) (split_sep sep s) = s.
Proof.
  induction s as [|c r IH]; [reflexivity|]. cbn [split_sep].
  destruct (split_sep sep r) as [|w ws] eqn:E; [contradiction (split_sep_nonempty sep r E)|].
  destruct (Ascii.eqb_spec c sep) as [->|_].
  - rewrite join_sep_cons2. cbn [append]. rewrite IH. reflexivity.
  - rewrite join_sep_cons_string, IH. reflexivity.
Qed.

Lemma find_role_part_app (l1 l2 : list string) (i : nat) :
  find_role_part l1 i = None -> find_role_part (l1 ++ l2) i = find_role_part l2 (i + List.length l1).
Proof.
  revert i. induction l1 as [|p r IH]; intros i H; cbn [app List.length].
  - rewrite Nat.add_0_r. reflexivity.
  - cbn [find_role_part] in *. destruct (String.eqb p "head" || String.eqb p "worker"); [discriminate|].
    rewrite IH by exact H. f_equal. lia.
Qed.

Definition no_role_part (parts : list string) : Prop :=
  forall part, In part parts -> part <> "head" /\ part <> "worker".

Lemma find_role_part_none (l : list string) (i : nat) :
  no_role_part l -> find_role_part l i = None.
Proof.
  revert i. induction l as [|p r IH]; intros i H; [reflexivity|]. cbn [find_role_part].
  destruct (H p (or_introl eq_refl)) as [Hh Hw].
  apply String.eqb_neq in Hh, Hw. rewrite Hh, Hw. apply IH.
  intros q Hq. apply H. right. exact Hq.
Qed.

Lemma firstn_app_length {A : Type} (l1 l2 : list A) : firstn (List.length l1) (l1 ++ l2) = l1.
Proof. rewrite firstn_app, Nat.sub_diag, firstn_all. cbn [firstn]. apply app_nil_r. Qed.

Lemma infer_job_name_role (job role s : string) :
  no_role_part (split_sep "-" job) -> role = "head" \/ role = "worker" ->
  _infer_job_name (job ++ "-" ++ role ++ "-" ++ s) = job.
Proof.
  intros Hj Hrole. unfold _infer_job_name. cbn [append].
  rewrite !split_sep_app.
  assert (Hr : split_sep "-" role = [role]) by (destruct Hrole; subst; reflexivity).
  assert (Ht : (String.eqb role "head" || String.eqb role "worker") = true)
    by (destruct Hrole; subst; reflexivity).
  rewrite Hr, find_role_part_app by (apply find_role_part_none, Hj).
  cbn [app find_role_part]. rewrite Ht, Nat.add_0_l, firstn_app_length.
  apply join_split_sep.
Qed.

(** [_infer_job_name] recovers the job name [J] from a Ray pod name
    [J-head-...] or [J-worker-...], whatever follows, as long as no
    dash-separated segment of [J] is itself [head] or [worker]. *)
Theorem infer_job_name_role_suffix (job role s : string) :
  (forall part, In part (split_sep "-" job) -> part <> "head" /\ part <> "worker") ->
  role = "head" \/ role = "worker" ->
  _infer_job_name (job ++ "-" ++ role ++ "-" ++ s) = job.
Proof. exact (infer_job_name_role job role s). Qed.

(** Without a [head]/[worker] segment, [_infer_job_name] drops the last two
    segments: a pod [J-a-b] (e.g. a ReplicaSet pod [J-<hash>-<id>]) is
    filed under [J], for dash-free [a] and [b] that are not [head] or
    [worker]. *)
Theorem infer_job_name_hash_suffix (job a b : string) :
  (forall part, In part (split_sep "-" job) -> part <> "head" /\ part <> "worker") ->
  ~ In "-"%char (list_ascii_of_string a) -> ~ In "-"%char (list_ascii_of_string b) ->
  a <> "head" -> a <> "worker" -> b <> "head" -> b <> "worker" ->
  _infer_job_name (job ++ "-" ++ a ++ "-" ++ b) = job.
Proof.
  intros Hj Ha Hb Ha1 Ha2 Hb1 Hb2. unfold _infer_job_name. cbn [append].
  rewrite !split_sep_app, (split_sep_word _ a Ha), (split_sep_word _ b Hb).
  rewrite find_role_part_none.
  2:{ intros part Hp. apply in_app_or in Hp. destruct Hp as [Hp|[<-|[<-|[]]]]; auto. }
  rewrite length_app. cbn [List.length app].
  pose proof (split_sep_nonempty "-" job) as Hne.
  destruct (split_sep "-" job) as [|p ps] eqn:E; [contradiction|].
  replace (Nat.ltb 2 (List.length (p :: ps) + 2)) with true
    by (symmetry; apply Nat.ltb_lt; cbn [List.length]; lia).
  replace (List.length (p :: ps) + 2 - 2) with (List.length (p :: ps)) by lia.
  rewrite firstn_app_length, <- E. apply join_split_sep.
Qed.

(* ------------------------------------------------------------------ *)
(** ** [group_pods_by_job] *)

Section Grouping.
Context {A : Type} (key : A -> string).

Lemma dd_append_get (k k' : string) (x : A) (d : list (string * list A)) :
  dict_get k' (dd_append k x d) [] =
  if String.eqb k k' then dict_get k' d [] ++ [x] else dict_get k' d [].
Proof.
  induction d as [|[k0 l] r IH]; cbn [dd_append dict_get].
  - rewrite String.eqb_sym. destruct (String.eqb k k'); reflexivity.
  - destruct (String.eqb_spec k k0) as [->|Hk]; cbn [dict_get].
    + destruct (String.eqb_spec k' k0) as [->|Hk']; rewrite ?String.eqb_refl.
      * reflexivity.
      * replace (String.eqb k0 k') with false by (symmetry; apply String.eqb_neq; congruence).
        reflexivity.
    + rewrite IH. destruct (String.eqb_spec k' k0) as [->|Hk'].
      * replace (String.eqb k k0) with false by (symmetry; apply String.eqb_neq; congruence).
        reflexivity.
      * reflexivity.
Qed.

Lemma dd_append_keys_in (k k' : string) (x : A) (d : list (string * list A)) :
  In k' (map fst (dd_append k x d)) <-> k' = k \/ In k' (map fst d).
Proof.
  induction d as [|[k0 l] r IH]; cbn [dd_append map fst In].
  - intuition.
  - destruct (String.eqb_spec k k0) as [->|Hk]; cbn [map fst In].
    + intuition.
    + rewrite IH. intuition.
Qed.

Lemma dd_append_nodup (k : string) (x : A) (d : list (string * list A)) :
  NoDup (map fst d) -> NoDup (map fst (dd_append k x d)).
Proof.
  induction d as [|[k0 l] r IH]; intros H; cbn [dd_append map fst].
  - constructor; [intros []|constructor].
  - inversion H as [|? ? Hn Hr]; subst.
    destruct (String.eqb_spec k k0) as [->|Hk]; cbn [map fst]; [exact H|].
    constructor; [|exact (IH Hr)].
    rewrite dd_append_keys_in. intros [E|E]; [congruence|contradiction].
Qed.

Definition group_by (xs : list A) (d : list (string * list A)) : list (string * list A) :=
  fold_left (fun d p => dd_append (key p) p d) xs d.

Lemma group_by_get (xs : list A) (d : list (string * list A)) (k : string) :
  dict_get k (group_by xs d) [] = dict_get k d [] ++ filter (fun p => String.eqb (key p) k) xs.
Proof.
  revert d. induction xs as [|p ps IH]; intros d; cbn [group_by fold_left filter].
  - symmetry. apply app_nil_r.
  - unfold group_by in IH. rewrite IH, dd_append_get.
    destruct (String.eqb (key p) k); [|reflexivity]. rewrite <- app_assoc. reflexivity.
Qed.

Lemma group_by_nodup (xs : list A) (d : list (string * list A)) :
  NoDup (map fst d) -> NoDup (map fst (group_by xs d)).
Proof.
  revert d. induction xs as [|p ps IH]; intros d H; [exact H|].
  cbn [group_by fold_left]. apply IH, dd_append_nodup, H.
Qed.

Lemma group_by_keys (xs : list A) (d : list (string * list A)) (k : string) :
  In k (map fst (group_by xs d)) <-> In k (map fst d) \/ exists p, In p xs /\ key p = k.
Proof.
  revert d. induction xs as [|p ps IH]; intros d; cbn [group_by fold_left].
  - split; [now left|]. intros [H|[p [[] _]]]. exact H.
  - unfold group_by in IH. rewrite IH, dd_append_keys_in. split.
    + intros [[E|E]|[q [Hq Eq]]].
      * right. exists p. split; [left; reflexivity|symmetry; exact E].
      * left. exact E.
      * right. exists q. split; [right; exact Hq|exact Eq].
    + intros [E|[q [[<-|Hq] Eq]]].
      * left. right. exact E.
      * left. left. symmetry. exact Eq.
      * right. exists q. split; [exact Hq|exact Eq].
Qed.

End Grouping.

(** [group_pods_by_job] partitions the pods: its keys are distinct and are
    exactly the keys of the given pods, and the group of a key lists the
    pods with that key, in their original order. *)
Theorem group_pods_by_job_partition (pods : list pod) :
  NoDup (map fst (group_pods_by_job pods)) /\
  (forall k, dict_get k (group_pods_by_job pods) [] =
             filter (fun p => String.eqb (pod_job_key p) k) pods) /\
  (forall k, In k (map fst (group_pods_by_job pods)) <->
             exists p, In p pods /\ pod_job_key p = k).
Proof.
  change (group_pods_by_job pods) with (group_by pod_job_key pods []).
  split; [apply group_by_nodup; constructor|split].
  - intros k. rewrite group_by_get. reflexivity.
  - intros k. rewrite group_by_keys. cbn [map In]. intuition.
Qed.

(* ------------------------------------------------------------------ *)
(** ** [get_pod_role] with [group_pods_by_job] *)

Lemma prefix_self_app (p b : string) : String.prefix p (p ++ b) = true.
Proof.
  induction p as [|c p IH]; [destruct b; reflexivity|]. cbn [append String.prefix].
  destruct (ascii_dec c c) as [_|n]; [exact IH|contradiction (n eq_refl)].
Qed.

Lemma str_contains_app (p a b : string) : str_contains p (a ++ p ++ b) = true.
Proof.
  induction a as [|c a IH]; cbn [append].
  - pose proof (prefix_self_app p b) as H.
    destruct (p ++ b)%string; cbn [str_contains]; rewrite H; reflexivity.
  - cbn [str_contains]. rewrite IH, orb_true_r. reflexivity.
Qed.

(** A head pod without labels, named [J-head-...] by Ray, is reported with
    role [Head] and grouped under its job [J] (no dash-separated segment of
    [J] being [head] or [worker]). *)
Theorem unlabelled_head_pod (job s : string) (labels : list (string * string)) :
  (forall part, In part (split_sep "-" job) -> part <> "head" /\ part <> "worker") ->
  label_get "ray.io/node-type" labels = "" ->
  label_get "ray.io/cluster" labels = "" ->
  label_get "ray.io/job-name" labels = "" ->
  label_get "app.kubernetes.io/instance" labels = "" ->
  get_pod_role (mkPod (job ++ "-head-" ++ s) labels) = "Head" /\
  pod_job_key (mkPod (job ++ "-head-" ++ s) labels) = job.
Proof.
  intros Hj Hn Hc Hjn Hi. split.
  - unfold get_pod_role. cbn [pod_name pod_labels]. rewrite Hn.
    change (negb (String.eqb (py_capitalize "") "")) with false. cbn iota.
    rewrite str_contains_app. reflexivity.
  - unfold pod_job_key. cbn [pod_name pod_labels]. rewrite Hc, Hjn, Hi.
    change ("-head-" ++ s)%string with ("-" ++ "head" ++ "-" ++ s)%string.
    exact (infer_job_name_role job "head" s Hj (or_introl eq_refl)).
Qed.

(* ------------------------------------------------------------------ *)
(** ** Deleting the selected jobs *)


(* ------------------------------------------------------------------ *)
(** ** Witnesses *)

Lemma generate_occupy_yamls_plan_witness :
  Forall (fun n => has_brace n.(instance_type) = false) sample_free_nodes /\
  List.length (batch_plan sample_free_nodes) <= List.length sample_job_names /\
  exists files,
    _generate_occupy_yamls "occupy-jobs" (batch_plan sample_free_nodes) "default" sample_job_names
    = Some files /\
    zsum (map (fun f => manifest_nodes (snd f)) files) = 8%Z.
Proof.
  assert (H1 : Forall (fun n => has_brace n.(instance_type) = false) sample_free_nodes)
    by (repeat constructor).
  assert (H2 : List.length (batch_plan sample_free_nodes) <= List.length sample_job_names)
    by (vm_compute; lia).
  split; [exact H1|]. split; [exact H2|].
  destruct (generate_occupy_yamls_plan "occupy-jobs" "default" sample_free_nodes sample_job_names H1 H2)
    as (files & Hf & _ & _ & _ & _ & Hz).
  exists files. split; [exact Hf|]. rewrite Hz. reflexivity.
Defined.

Lemma submitted_job_name_roundtrip_witness :
  has_slash "run-qwen3-retool-0615-01" = false /\ has_dot "run-qwen3-retool-0615-01" = false /\
  submitted_job_name (os_path_join "occupy-jobs" ("run-qwen3-retool-0615-01" ++ ".yaml"))
  = "run-qwen3-retool-0615-01".
Proof.
  assert (H1 : has_slash "run-qwen3-retool-0615-01" = false) by reflexivity.
  assert (H2 : has_dot "run-qwen3-retool-0615-01" = false) by reflexivity.
  split; [exact H1|]. split; [exact H2|].
  exact (submitted_job_name_roundtrip "occupy-jobs" "run-qwen3-retool-0615-01" H1 H2).
Defined.


Lemma occupy_pattern_index_witness :
  "qwen3" <> "" /\ "retool" <> "" /\
  forallb is_lower_alnum (list_ascii_of_string "qwen3") = true /\
  forallb is_lower_alnum (list_ascii_of_string "retool") = true /\
  String.length "0615" = 4 /\ all_digits "0615" = true /\
  match_occupy_name (name_prefix "qwen3" "retool" "0615" ++ "-" ++ format_02d 100) = false.
Proof.
  assert (H1 : "qwen3" <> "") by discriminate.
  assert (H2 : "retool" <> "") by discriminate.
  assert (H3 : forallb is_lower_alnum (list_ascii_of_string "qwen3") = true) by reflexivity.
  assert (H4 : forallb is_lower_alnum (list_ascii_of_string "retool") = true) by reflexivity.
  assert (H5 : String.length "0615" = 4) by reflexivity.
  assert (H6 : all_digits "0615" = true) by reflexivity.
  split; [exact H1|]. split; [exact H2|]. split; [exact H3|]. split; [exact H4|].
  split; [exact H5|]. split; [exact H6|].
  exact (occupy_pattern_index "qwen3" "retool" "0615" 100 H1 H2 H3 H4 H5 H6).
Defined.

Lemma existing_job_names_members_witness :
  In "job-a" (_get_existing_job_names 0 "  job-a   job-b ") /\
  "job-a" <> "" /\ forallb (fun c => negb (py_isspace c)) (list_ascii_of_string "job-a") = true.
Proof.
  assert (H : In "job-a" (_get_existing_job_names 0 "  job-a   job-b ")) by (vm_compute; left; reflexivity).
  split; [exact H|]. exact (existing_job_names_members 0 "  job-a   job-b " "job-a" H).
Defined.


Lemma infer_job_name_role_suffix_witness :
  (forall part, In part (split_sep "-" "qwen-rl") -> part <> "head" /\ part <> "worker") /\
  _infer_job_name ("qwen-rl" ++ "-" ++ "worker" ++ "-" ++ "3") = "qwen-rl".
Proof.
  assert (H : forall part, In part (split_sep "-" "qwen-rl") -> part <> "head" /\ part <> "worker").
  { intros part Hp. simpl in Hp. destruct Hp as [<-|[<-|[]]]; split; discriminate. }
  split; [exact H|]. exact (infer_job_name_role_suffix "qwen-rl" "worker" "3" H (or_intror eq_refl)).
Defined.

Lemma infer_job_name_hash_suffix_witness :
  (forall part, In part (split_sep "-" "qwen-rl") -> part <> "head" /\ part <> "worker") /\
  ~ In "-"%char (list_ascii_of_string "7d9f8") /\ ~ In "-"%char (list_ascii_of_string "x2kq") /\
  _infer_job_name ("qwen-rl" ++ "-" ++ "7d9f8" ++ "-" ++ "x2kq") = "qwen-rl".
Proof.
  assert (H : forall part, In part (split_sep "-" "qwen-rl") -> part <> "head" /\ part <> "worker").
  { intros part Hp. simpl in Hp. destruct Hp as [<-|[<-|[]]]; split; discriminate. }
  assert (Ha : ~ In "-"%char (list_ascii_of_string "7d9f8")).
  { simpl. intros Hc. repeat destruct Hc as [Hc|Hc]; discriminate || contradiction. }
  assert (Hb : ~ In "-"%char (list_ascii_of_string "x2kq")).
  { simpl. intros Hc. repeat destruct Hc as [Hc|Hc]; discriminate || contradiction. }
  split; [exact H|]. split; [exact Ha|]. split; [exact Hb|].
  exact (infer_job_name_hash_suffix "qwen-rl" "7d9f8" "x2kq" H Ha Hb
           ltac:(discriminate) ltac:(discriminate) ltac:(discriminate) ltac:(discriminate)).
Defined.

Lemma unlabelled_head_pod_witness :
  (forall part, In part (split_sep "-" "qwen-rl") -> part <> "head" /\ part <> "worker") /\
  get_pod_role (mkPod ("qwen-rl" ++ "-head-" ++ "x7k2p") [("app", "ray")]) = "Head" /\
  pod_job_key (mkPod ("qwen-rl" ++ "-head-" ++ "x7k2p") [("app", "ray")]) = "qwen-rl".
Proof.
  assert (H : forall part, In part (split_sep "-" "qwen-rl") -> part <> "head" /\ part <> "worker").
  { intros part Hp. simpl in Hp. destruct Hp as [<-|[<-|[]]]; split; discriminate. }
  split; [exact H|].
  exact (unlabelled_head_pod "qwen-rl" "x7k2p" [("app", "ray")] H
           eq_refl eq_refl eq_refl eq_refl).
Defined.


(* ------------------------------------------------------------------ *)
(** ** [get_pods] *)

Lemma ready_fold_bounds (sit : list json) (acc r : Z) :
  res_fold (fun acc cs => r <- py_get cs "ready" (JBool false) ;;
                          Ok (if py_truthy r then acc + 1 else acc)%Z) sit acc = Ok r ->
  (acc <= r <= acc + Z.of_nat (List.length sit))%Z.
Proof.
  revert acc. induction sit as [|cs rest IH]; intros acc H; cbn [res_fold] in H.
  - injection H as <-. cbn [List.length]. lia.
  - destruct (py_get cs "ready" (JBool false)) as [v|e]; [|discriminate].
    apply IH in H. cbn [List.length]. destruct (py_truthy v); lia.
Qed.

Lemma py_iter_len (v : json) (it : list json) :
  py_iter v = Ok it -> py_truthy v = true -> py_len v = Ok (Z.of_nat (List.length it)).
Proof.
  intros H _. destruct v as [| | |s|l|kvs]; cbn in H; try discriminate; injection H as <-; cbn [py_len].
  - rewrite length_map. f_equal. f_equal. induction s as [|c s IH]; cbn; congruence.
  - reflexivity.
  - rewrite length_map. reflexivity.
Qed.

Lemma py_iter_falsy (v : json) (it : list json) :
  py_iter v = Ok it -> py_truthy v = false -> it = [].
Proof.
  intros H Ht. destruct v as [| | |s|l|kvs]; cbn in H; try discriminate; injection H as <-.
  - cbn in Ht. apply negb_false_iff, String.eqb_eq in Ht. subst. reflexivity.
  - destruct l; [reflexivity|discriminate].
  - destruct kvs; [reflexivity|discriminate].
Qed.

Lemma pod_info_of_ready (item : json) (p : pod_info) :
  pod_info_of item = Ok p -> (0 <= p.(pi_ready_count) <= p.(pi_total_count))%Z.
Proof.
  unfold pod_info_of. intros H.
  destruct (py_get item "metadata" _) as [metadata|]; [|discriminate].
  destruct (py_get item "status" _) as [status|]; [|discriminate].
  destruct (py_get item "spec" _) as [spec|]; [|discriminate].
  destruct (py_get spec "containers" _) as [cl|]; [|discriminate].
  destruct (py_iter cl) as [cit|]; [|discriminate].
  destruct (res_map _ cit) as [containers|]; [|discriminate].
  destruct (py_get status "containerStatuses" _) as [cs|]; [|discriminate].
  destruct (py_iter cs) as [sit|] eqn:Hit; [|discriminate].
  destruct (res_fold _ sit 0%Z) as [ready|] eqn:Hr; [|discriminate].
  apply ready_fold_bounds in Hr.
  destruct (py_truthy cs) eqn:Ht.
  - rewrite (py_iter_len cs sit Hit Ht) in H.
    repeat match type of H with
           | context [match ?x with Ok _ => _ | Raise _ => _ end] =>
               destruct x; [|discriminate]
           end.
    injection H as <-. cbn. lia.
  - rewrite (py_iter_falsy cs sit Hit Ht) in Hr. cbn [List.length] in Hr.
    repeat match type of H with
           | context [match ?x with Ok _ => _ | Raise _ => _ end] =>
               destruct x; [|discriminate]
           end.
    injection H as <-. cbn. lia.
Qed.

Lemma res_map_in {A B : Type} (f : A -> res B) (l : list A) (ys : list B) (y : B) :
  res_map f l = Ok ys -> In y ys -> exists x, In x l /\ f x = Ok y.
Proof.
  revert ys. induction l as [|x r IH]; intros ys H Hy; cbn [res_map] in H.
  - injection H as <-. destruct Hy.
  - destruct (f x) as [y0|] eqn:Hf; [|discriminate].
    destruct (res_map f r) as [ys0|] eqn:Hr; [|discriminate].
    injection H as <-. destruct Hy as [<-|Hy].
    + exists x. split; [left; reflexivity|exact Hf].
    + destruct (IH ys0 eq_refl Hy) as [x' [Hx' Hf']]. exists x'. split; [right; exact Hx'|exact Hf'].
Qed.

(** Every pod [get_pods] returns shows a [ready] count between 0 and its
    total count: the READY column never reads more ready containers than
    it counts. *)
Theorem get_pods_ready_le_total (out : kubectl_result) (pods : list pod_info) (p : pod_info) :
  get_pods out = Ok pods -> In p pods ->
  (0 <= p.(pi_ready_count) <= p.(pi_total_count))%Z.
Proof.
  unfold get_pods. intros H Hp.
  destruct (negb (Z.eqb out.(rc) 0)); [injection H as <-; destruct Hp|].
  destruct out.(stdout_json) as [data|]; [|injection H as <-; destruct Hp].
  destruct (py_get data "items" (JArr [])) as [items|e]; [|destruct e; try discriminate; injection H as <-; destruct Hp].
  destruct (py_iter items) as [it|e]; [|destruct e; try discriminate; injection H as <-; destruct Hp].
  destruct (res_map pod_info_of it) as [ps|e] eqn:Hm; [|destruct e; try discriminate; injection H as <-; destruct Hp].
  injection H as <-. destruct (res_map_in _ _ _ _ Hm Hp) as [item [_ Hi]].
  exact (pod_info_of_ready item p Hi).
Qed.

Lemma get_pods_ready_le_total_witness :
  get_pods sample_pods_out = Ok [sample_pod_info] /\ In sample_pod_info [sample_pod_info] /\
  (0 <= sample_pod_info.(pi_ready_count) <= sample_pod_info.(pi_total_count))%Z.
Proof.
  assert (H1 : get_pods sample_pods_out = Ok [sample_pod_info]) by (vm_compute; reflexivity).
  assert (H2 : In sample_pod_info [sample_pod_info]) by (left; reflexivity).
  split; [exact H1|]. split; [exact H2|].
  exact (get_pods_ready_le_total sample_pods_out [sample_pod_info] sample_pod_info H1 H2).
Defined.
